(** * tesla-apiscraper: the polling scheduler and activity classifier

    A shallow embedding of [apiscraper.py]: the snapshot store kept by
    [StateMonitor] ([old_values]), the activity classifier
    ([ongoing_activity_status]), the per-cycle scheduler ([check_states]),
    the forced wake-up deadline ([calculate_next_wakeup]) and the body of
    the main program loop.

    Conventions of the embedding.
    - Python values are the JSON scalars the monitored fields carry
      ([pyval]); floating-point numbers and nested JSON objects are not
      represented.
    - A Python exception is a [Raise] result; the classes the code
      distinguishes are the constructors of [exn].
    - [time.time()] is an explicit argument at every place the code reads
      the clock.
    - Calls to collaborators that are not part of [apiscraper.py] (the
      Tesla connection, the Influx client, the elevation thread) appear as
      inputs (their outcome) or as recorded events (their invocation).
    - Logging has no effect on the state and is left out. *)

From Stdlib Require Import ZArith List Bool Ascii String Lia.
From stdpp Require Import base option strings gmap fin_maps sorting.

Open Scope Z_scope.

(** ** Exceptions and results *)

Inductive exn :=
| KeyError
| TypeError
| AttributeError
| ValueError
| ContinuePollingError   (* teslajson: timeout talking to the vehicle *)
| HTTPError              (* urllib3.exceptions.HTTPError and subclasses *)
| OtherError.            (* any other exception class *)

Inductive result (A : Type) :=
| Ok (a : A)
| Raise (e : exn).
Arguments Ok {A} a.
Arguments Raise {A} e.

#[global] Instance result_ret : MRet result := @Ok.
#[global] Instance result_bind : MBind result := fun A B f r =>
  match r with
  | Ok a => f a
  | Raise e => Raise e
  end.

(** ** Python values *)

Inductive pyval :=
| PNone
| PBool (b : bool)
| PInt (n : Z)
| PStr (s : string).

#[global] Instance pyval_eq_dec : EqDecision pyval.
Proof. solve_decision. Defined.

(** [bool] is a subclass of [int]: [True] is [1] and [False] is [0]. *)
Definition py_num (v : pyval) : option Z :=
  match v with
  | PBool b => Some (Z.b2z b)
  | PInt n => Some n
  | PNone | PStr _ => None
  end.

(** [a == b] *)
Definition py_eq (a b : pyval) : bool :=
  match a, b with
  | PNone, PNone => true
  | PStr s, PStr t => String.eqb s t
  | _, _ =>
      match py_num a, py_num b with
      | Some x, Some y => x =? y
      | _, _ => false
      end
  end.

(** [bool(v)], the test made by [if v], [not v] and [v or d]. *)
Definition py_truthy (v : pyval) : bool :=
  match v with
  | PNone => false
  | PBool b => b
  | PInt n => negb (n =? 0)
  | PStr s => negb (String.eqb s "")
  end.

(** [v or d] *)
Definition py_or (v d : pyval) : pyval := if py_truthy v then v else d.

(** [v > n] and [v < n] against an integer literal: ordering a string or
    [None] with an integer raises [TypeError]. *)
Definition py_gt (v : pyval) (n : Z) : result bool :=
  match py_num v with
  | Some x => Ok (n <? x)
  | None => Raise TypeError
  end.

Definition py_lt (v : pyval) (n : Z) : result bool :=
  match py_num v with
  | Some x => Ok (x <? n)
  | None => Raise TypeError
  end.

(** [abs(v - n) <= d] for integers [n], [d]. *)
Definition py_abs_diff_le (v : pyval) (n d : Z) : result bool :=
  match py_num v with
  | Some x => Ok (Z.abs (x - n) <=? d)
  | None => Raise TypeError
  end.

(** [str.lower()]. Strings are byte strings here; only ASCII letters have
    a lower-case form among bytes, and no non-ASCII character lowers to a
    letter of the words the code compares with. *)
Definition ascii_lower (c : ascii) : ascii :=
  let n := nat_of_ascii c in
  if ((65 <=? n)%nat && (n <=? 90)%nat)%bool then ascii_of_nat (n + 32) else c.

Fixpoint lower (s : string) : string :=
  match s with
  | EmptyString => EmptyString
  | String c r => String (ascii_lower c) (lower r)
  end.

(** [v.lower()]: only strings have the method. *)
Definition py_lower (v : pyval) : result string :=
  match v with
  | PStr s => Ok (lower s)
  | _ => Raise AttributeError
  end.

(** [int(s)] for a string: surrounding whitespace (tab to carriage return,
    and the space), an optional sign, then decimal digits with single
    underscores between digits. (Decimal digits outside ASCII and the
    limit on the number of digits of recent interpreters are not
    modelled.) *)
Definition is_space (c : ascii) : bool :=
  let n := nat_of_ascii c in
  (((9 <=? n)%nat && (n <=? 13)%nat) || (n =? 32)%nat)%bool.

Definition digit_of (c : ascii) : option Z :=
  let n := nat_of_ascii c in
  if ((48 <=? n)%nat && (n <=? 57)%nat)%bool then Some (Z.of_nat (n - 48)) else None.

Inductive dstate := DStart | DDigit | DUnder.

Fixpoint parse_digits (s : list ascii) (st : dstate) (acc : Z) : option Z :=
  match s with
  | [] => match st with DDigit => Some acc | _ => None end
  | c :: r =>
      match digit_of c with
      | Some d => parse_digits r DDigit (10 * acc + d)
      | None =>
          if Ascii.eqb c "_"%char
          then match st with DDigit => parse_digits r DUnder acc | _ => None end
          else None
      end
  end.

Fixpoint drop_spaces (s : list ascii) : list ascii :=
  match s with
  | c :: r => if is_space c then drop_spaces r else s
  | [] => []
  end.

Definition strip (s : list ascii) : list ascii :=
  rev (drop_spaces (rev (drop_spaces s))).

Definition int_of_string (s : string) : option Z :=
  match strip (list_ascii_of_string s) with
  | c :: r =>
      if Ascii.eqb c "-"%char then Z.opp <$> parse_digits r DStart 0
      else if Ascii.eqb c "+"%char then parse_digits r DStart 0
      else parse_digits (c :: r) DStart 0
  | [] => None
  end.

(** [int(v)] *)
Definition py_int (v : pyval) : result Z :=
  match v with
  | PNone => Raise TypeError
  | PBool b => Ok (Z.b2z b)
  | PInt n => Ok n
  | PStr s => match int_of_string s with Some n => Ok n | None => Raise ValueError end
  end.

(** ** The snapshot store *)

(** [self.requests] *)
Inductive category :=
| charge_state
| climate_state
| drive_state
| gui_settings
| vehicle_state.

#[global] Instance category_eq_dec : EqDecision category.
Proof. solve_decision. Defined.

Definition requests : list category :=
  [charge_state; climate_state; drive_state; gui_settings; vehicle_state].

Definition category_name (c : category) : string :=
  match c with
  | charge_state => "charge_state"
  | climate_state => "climate_state"
  | drive_state => "drive_state"
  | gui_settings => "gui_settings"
  | vehicle_state => "vehicle_state"
  end.

(** A Python dict with string keys. *)
Abbreviation dict := (gmap string pyval).

(** [d.get(k, dflt)] *)
Definition py_get (d : dict) (k : string) (dflt : pyval) : pyval :=
  default dflt (d !! k).

(** [self.old_values]: one dict per entry of [self.requests], created in
    [__init__]; the set of keys never changes afterwards. *)
Record old_values_t := {
  ov_charge : dict;
  ov_climate : dict;
  ov_drive : dict;
  ov_gui : dict;
  ov_vehicle : dict
}.

Definition ov_get (ov : old_values_t) (c : category) : dict :=
  match c with
  | charge_state => ov_charge ov
  | climate_state => ov_climate ov
  | drive_state => ov_drive ov
  | gui_settings => ov_gui ov
  | vehicle_state => ov_vehicle ov
  end.

Definition ov_set (ov : old_values_t) (c : category) (d : dict) : old_values_t :=
  match c with
  | charge_state =>
      {| ov_charge := d; ov_climate := ov_climate ov; ov_drive := ov_drive ov;
         ov_gui := ov_gui ov; ov_vehicle := ov_vehicle ov |}
  | climate_state =>
      {| ov_charge := ov_charge ov; ov_climate := d; ov_drive := ov_drive ov;
         ov_gui := ov_gui ov; ov_vehicle := ov_vehicle ov |}
  | drive_state =>
      {| ov_charge := ov_charge ov; ov_climate := ov_climate ov; ov_drive := d;
         ov_gui := ov_gui ov; ov_vehicle := ov_vehicle ov |}
  | gui_settings =>
      {| ov_charge := ov_charge ov; ov_climate := ov_climate ov; ov_drive := ov_drive ov;
         ov_gui := d; ov_vehicle := ov_vehicle ov |}
  | vehicle_state =>
      {| ov_charge := ov_charge ov; ov_climate := ov_climate ov; ov_drive := ov_drive ov;
         ov_gui := ov_gui ov; ov_vehicle := d |}
  end.


(** ** The activity classifier *)

(** [shift == 'R' or shift == 'D'] *)
Definition shift_in_gear (shift : pyval) : bool :=
  py_eq shift (PStr "R") || py_eq shift (PStr "D").

(** [StateMonitor.ongoing_activity_status]; [now] is [int(time.time())]. *)
Definition ongoing_activity_status (ov : old_values_t) (now : Z) : result string :=
  let shift := py_get (ov_drive ov) "shift_state" (PStr "") in
  let old_speed := py_or (py_get (ov_drive ov) "speed" (PInt 0)) (PInt 0) in
  moving ← (if shift_in_gear shift || py_eq shift (PStr "N")
            then Ok true else py_gt old_speed 0);
  if moving : bool then Ok "driving"%string else
  cs ← py_lower (py_get (ov_charge ov) "charging_state" (PStr ""));
  if String.eqb cs "charging" || String.eqb cs "starting" then Ok "charging"%string else
  volt ← py_gt (py_get (ov_charge ov) "charger_voltage" (PInt 0)) 10;
  tail ← (if volt : bool
          then py_gt (py_get (ov_charge ov) "charger_actual_current" (PInt 0)) 0
          else Ok false);
  if tail : bool then Ok "charging"%string else
  due ← (if py_truthy (py_get (ov_charge ov) "scheduled_charging_pending" (PBool false))
         then py_abs_diff_le
                (py_get (ov_charge ov) "scheduled_charging_start_time" (PInt 0)) now 2
         else Ok false);
  if due : bool then Ok "charging"%string else
  if py_truthy (py_get (ov_climate ov) "is_climate_on" (PBool false))
  then Ok "conditioning"%string else
  let cds := py_get (ov_vehicle ov) "center_display_state" (PInt 0) in
  if negb (py_eq cds (PInt 0) || py_eq cds (PInt 5)) then
    let cds' := py_get (ov_vehicle ov) "center_display_state" PNone in
    if py_eq cds' (PInt 2) then Ok "screen on (normal)"%string
    else if py_eq cds' (PInt 3) then Ok "screen on (charging)"%string
    else if py_eq cds' (PInt 7) then Ok "screen on (sentry)"%string
    else if py_eq cds' (PInt 8) then Ok "screen on (dog mode)"%string
    else Ok "screen on"%string
  else Ok "idle"%string.

(** ** Configuration and program state *)

(** The names [from config import *] brings in that the scheduler reads. *)
Record config := {
  a_awake_poll_secs : Z;
  a_maximum_sleep : Z;
  a_allow_sleep : Z;
  a_dry_run : bool;
  a_resolve_elevation : bool
}.

(** The entries of [self.vehicle] the program reads or writes. *)
Record vehicle_t := {
  v_state : pyval;
  v_display_name : pyval;
  v_vin : pyval
}.

(** The [StateMonitor] object. [pollTimes] is the constant below;
    [noChangesPollCount] starts at 0 and is only incremented or reset. *)
Record monitor := {
  old_values : old_values_t;
  vehicle : vehicle_t;
  noChangesPollCount : nat
}.

Definition pollTimes : list Z :=
  [2; 5; 15; 30; 45; 60; 120; 120; 120; 120; 120; 120; 120; 120; 120; 120; 2000; 120].

(** The module-level variables. *)
Record globals := {
  a_vin : pyval;
  a_display_name : pyval;
  poll_interval : Z;
  asleep_since : option Z;
  next_wakeup : Z;
  previous_car_state : pyval;
  busy_since : Z;
  car_active_status : option string;
  last_data_from_tesla : pyval;
  first_run : bool;
  state_monitor : monitor
}.

Definition set_old_values (m : monitor) (ov : old_values_t) : monitor :=
  {| old_values := ov; vehicle := vehicle m; noChangesPollCount := noChangesPollCount m |}.

Definition set_vehicle (m : monitor) (v : vehicle_t) : monitor :=
  {| old_values := old_values m; vehicle := v; noChangesPollCount := noChangesPollCount m |}.

Definition set_count (m : monitor) (n : nat) : monitor :=
  {| old_values := old_values m; vehicle := vehicle m; noChangesPollCount := n |}.

Definition set_v_state (v : vehicle_t) (s : pyval) : vehicle_t :=
  {| v_state := s; v_display_name := v_display_name v; v_vin := v_vin v |}.

Definition set_v_display_name (v : vehicle_t) (s : pyval) : vehicle_t :=
  {| v_state := v_state v; v_display_name := s; v_vin := v_vin v |}.

Definition set_monitor (g : globals) (m : monitor) : globals :=
  {| a_vin := a_vin g; a_display_name := a_display_name g;
     poll_interval := poll_interval g; asleep_since := asleep_since g;
     next_wakeup := next_wakeup g; previous_car_state := previous_car_state g;
     busy_since := busy_since g; car_active_status := car_active_status g;
     last_data_from_tesla := last_data_from_tesla g; first_run := first_run g;
     state_monitor := m |}.

Definition set_last_data (g : globals) (t : pyval) : globals :=
  {| a_vin := a_vin g; a_display_name := a_display_name g;
     poll_interval := poll_interval g; asleep_since := asleep_since g;
     next_wakeup := next_wakeup g; previous_car_state := previous_car_state g;
     busy_since := busy_since g; car_active_status := car_active_status g;
     last_data_from_tesla := t; first_run := first_run g;
     state_monitor := state_monitor g |}.

(** ** Calls to collaborators *)

(** The dict handed to [influx_client.write_points]. *)
Record json_body := {
  measurement : string;
  tag_vin : pyval;
  tag_display_name : pyval;
  jb_fields : dict;
  jb_time : Z
}.

Inductive event :=
| WritePoints (b : json_body)
    (* influx_client.write_points([json_body]) in request_state_group *)
| StartElevator (lat long vin name timestamp : pyval)
    (* the elevationtoinflux thread is started *)
| WriteVehicleState (vin name : pyval) (ts : Z) (state : pyval)
    (* influx_client.write_points(state_body) in the main loop *)
| WakeUpCall
    (* self.vehicle.wake_up() *)
| Sleep (secs : Z).
    (* time.sleep(poll_interval) *)

(** [r['response']] of [self.vehicle.get('vehicle_data')]: a dict with the
    vehicle items and one dict per category; a key may be missing. *)
Record response := {
  r_state : option pyval;
  r_display_name : option pyval;
  r_group : category -> option dict
}.

(** What [self.vehicle.get('vehicle_data')] does: return or raise. *)
Inductive fetch :=
| FetchOk (r : response)
| FetchRaise (e : exn).

(** ** request_state_group *)

Definition mem (s : string) (l : list string) : bool := existsb (String.eqb s) l.

Definition a_ignore : list string :=
  ["media_state"; "software_update"; "speed_limit_mode"]%string.

(** The tuple of elements the loop passes over. *)
Definition unscraped : list string :=
  ["timestamp"; "gps_as_of"; "left_temp_direction"; "right_temp_direction";
   "charge_port_latch"]%string.

(** An entry of [a_validity_checks]: ['eval'] is evaluated with the local
    [new_value] in scope, ['set'] replaces the value when it holds. *)
Record validity_check := {
  vc_eval : pyval -> result bool;
  vc_set : pyval
}.

Definition a_validity_checks : list (string * validity_check) :=
  [("charger_voltage"%string,
    {| vc_eval := fun new_value => py_lt new_value 0; vc_set := PInt 0 |})].

Fixpoint find_check (element : string) (l : list (string * validity_check))
  : option validity_check :=
  match l with
  | [] => None
  | (k, vc) :: r => if String.eqb element k then Some vc else find_check element r
  end.

(** [sorted(result)], paired with [result[element]]. *)
Definition key_le (a b : string * pyval) : Prop := String.leb a.1 b.1 = true.

#[global] Instance key_le_dec a b : Decision (key_le a b).
Proof. unfold key_le. apply _. Defined.

Definition sorted_items (d : dict) : list (string * pyval) :=
  merge_sort key_le (map_to_list d).

(** The variables the element loop updates: [self.old_values[request]],
    [json_body['fields']], [a_lat], [a_long], and the calls made so far. *)
Record loop_st := {
  ls_old : dict;
  ls_fields : dict;
  ls_lat : pyval;
  ls_long : pyval;
  ls_events : list event
}.

(** The [if a_lat is not None and a_long is not None and
    a_resolve_elevation] block at the end of the element loop's body. *)
Definition elevation_step (cfg : config) (vin name timestamp : pyval) (st : loop_st)
  : loop_st :=
  match ls_lat st, ls_long st with
  | PNone, _ | _, PNone => st
  | lat, long =>
      if a_resolve_elevation cfg
      then {| ls_old := ls_old st; ls_fields := ls_fields st;
              ls_lat := PNone; ls_long := PNone;
              ls_events := ls_events st ++ [StartElevator lat long vin name timestamp] |}
      else st
  end.

(** One pass of [for element in sorted(result)]. *)
Definition process_element (cfg : config) (vin name timestamp : pyval)
    (item : string * pyval) (st : loop_st) : result loop_st :=
  let '(element, new_value) := item in
  if mem element unscraped then Ok (elevation_step cfg vin name timestamp st) else
  let old_value := py_get (ls_old st) element (PStr "") in
  let lat := if String.eqb element "native_latitude" then new_value else ls_lat st in
  let long := if String.eqb element "native_longitude" then new_value else ls_long st in
  if String.eqb element "vehicle_name" && negb (py_truthy new_value)
  then (* continue *)
    Ok {| ls_old := ls_old st; ls_fields := ls_fields st;
          ls_lat := lat; ls_long := long; ls_events := ls_events st |}
  else
    let new_value :=
      if String.eqb element "speed" && py_eq new_value PNone then PInt 0
      else if negb (py_eq new_value old_value) then
        if py_eq new_value PNone then
          if mem element ["shift_state"%string] then old_value else new_value
        else new_value
      else new_value in
    '(new_value, flds) ←
      match new_value with
      | PNone => Ok (new_value, ls_fields st)
      | _ =>
          if negb (mem element a_ignore) then
            violated ← match find_check element a_validity_checks with
                       | Some vc => vc_eval vc new_value
                       | None => Ok false
                       end;
            let new_value := if violated : bool
                             then match find_check element a_validity_checks with
                                  | Some vc => vc_set vc
                                  | None => new_value
                                  end
                             else new_value in
            Ok (new_value, <[element := new_value]> (ls_fields st))
          else Ok (new_value, ls_fields st)
      end;
    Ok (elevation_step cfg vin name timestamp
          {| ls_old := <[element := new_value]> (ls_old st); ls_fields := flds;
             ls_lat := lat; ls_long := long; ls_events := ls_events st |}).

Fixpoint process_elements (cfg : config) (vin name timestamp : pyval)
    (items : list (string * pyval)) (st : loop_st) : result loop_st :=
  match items with
  | [] => Ok st
  | item :: rest =>
      st' ← process_element cfg vin name timestamp item st;
      process_elements cfg vin name timestamp rest st'
  end.

(** The variables the category loop carries from one pass to the next. *)
Record group_st := {
  gs_globals : globals;
  gs_lat : pyval;
  gs_long : pyval;
  gs_events : list event
}.

(** One pass of [for request in self.requests]: [inl] is [break]. *)
Definition process_request (cfg : config) (r : response) (request : category)
    (gs : group_st) : result (group_st + group_st) :=
  let g := gs_globals gs in
  result_ ← match r_group r request with Some d => Ok d | None => Raise KeyError end;
  timestamp ← match result_ !! "timestamp"%string with
              | Some t => Ok t
              | None => Raise KeyError
              end;
  let g := set_last_data g timestamp in
  let m := state_monitor g in
  let old := ov_get (old_values m) request in
  if py_eq (py_get old "timestamp" (PStr "")) timestamp
  then Ok (inl {| gs_globals := g; gs_lat := gs_lat gs; gs_long := gs_long gs;
                  gs_events := gs_events gs |})
  else
    let old := <["timestamp"%string := timestamp]> old in
    t ← py_int timestamp;
    st ← process_elements cfg (a_vin g) (a_display_name g) timestamp
           (sorted_items result_)
           {| ls_old := old; ls_fields := ∅; ls_lat := gs_lat gs; ls_long := gs_long gs;
              ls_events := gs_events gs |};
    let body := {| measurement := category_name request; tag_vin := a_vin g;
                   tag_display_name := a_display_name g; jb_fields := ls_fields st;
                   jb_time := t * 1000000 |} in
    let evs := if negb (a_dry_run cfg) && (0 <? Z.of_nat (size (ls_fields st)))
               then ls_events st ++ [WritePoints body] else ls_events st in
    Ok (inr {| gs_globals :=
                 set_monitor g (set_old_values m (ov_set (old_values m) request (ls_old st)));
               gs_lat := ls_lat st; gs_long := ls_long st; gs_events := evs |}).

Fixpoint process_requests (cfg : config) (r : response) (reqs : list category)
    (gs : group_st) : result group_st :=
  match reqs with
  | [] => Ok gs
  | request :: rest =>
      o ← process_request cfg r request gs;
      match o with
      | inl gs' => Ok gs'
      | inr gs' => process_requests cfg r rest gs'
      end
  end.

(** [update_vehicle_from_response] *)
Definition update_vehicle_from_response (m : monitor) (r : response) : result monitor :=
  s ← match r_state r with Some s => Ok s | None => Raise KeyError end;
  n ← match r_display_name r with Some n => Ok n | None => Raise KeyError end;
  Ok (set_vehicle m (set_v_display_name (set_v_state (vehicle m) s) n)).

(** [StateMonitor.request_state_group], after [self.vehicle.get] has
    returned [r]; [now] is the clock read by the classifier. *)
Definition request_state_group (cfg : config) (g : globals) (r : response) (now : Z)
  : result (globals * list event * bool) :=
  m ← update_vehicle_from_response (state_monitor g) r;
  gs ← process_requests cfg r requests
         {| gs_globals := set_monitor g m; gs_lat := PNone; gs_long := PNone;
            gs_events := [] |};
  current_state ← ongoing_activity_status (old_values (state_monitor (gs_globals gs))) now;
  Ok (gs_globals gs, gs_events gs, negb (String.eqb (lower current_state) "idle")).

(** ** check_states *)

(** [self.vehicle['state'] = 'asleep'] *)
Definition assume_asleep (g : globals) : globals :=
  let m := state_monitor g in
  set_monitor g (set_vehicle m (set_v_state (vehicle m) (PStr "asleep"))).

(** Where the [try] statement of [check_states] leaves the method: it goes
    on to the code after the [try] with the current [interval] and
    [any_change], or an [except] clause has returned a value. *)
Inductive attempt :=
| Proceed (g : globals) (evs : list event) (interval : Z) (any_change : bool)
| Return (g : globals) (v : Z).

(** The [try] statement; [f] is what [self.vehicle.get] does in
    [request_state_group]. An exception no clause names propagates. *)
Definition check_states_try (cfg : config) (g : globals) (f : fetch) (now interval : Z)
  : result attempt :=
  match f with
  | FetchOk r =>
      '(g', evs, any_change) ← request_state_group cfg g r now;
      let shift := py_get (ov_drive (old_values (state_monitor g'))) "shift_state" (PStr "") in
      if shift_in_gear shift
      then Ok (Proceed g' evs (a_awake_poll_secs cfg) true)
      else Ok (Proceed g' evs interval any_change)
  | FetchRaise ContinuePollingError => Ok (Proceed (assume_asleep g) [] interval false)
  | FetchRaise HTTPError => Ok (Return g (if a_allow_sleep cfg =? 1 then interval else -1))
  | FetchRaise e => Raise e
  end.

(** The value read from [self.pollTimes] once [self.noChangesPollCount]
    has been incremented to [count]. *)
Definition poll_time (count : nat) : Z :=
  if Z.of_nat count - 1 <? Z.of_nat (length pollTimes)
  then nth (count - 1) pollTimes 0
  else nth (length pollTimes - 1) pollTimes 0.

(** [charging_state.lower() == 'charging'] on the stored charge state. *)
Definition charging_tier (g : globals) : result bool :=
  cs ← py_lower (py_get (ov_charge (old_values (state_monitor g))) "charging_state" (PStr ""));
  Ok (String.eqb cs "charging").

(** The code of [check_states] after the [try] statement. *)
Definition check_states_tail (cfg : config) (g : globals) (interval : Z) (any_change : bool)
  : result (globals * Z) :=
  let interval := if interval =? 0 then a_awake_poll_secs cfg else interval in
  let m := state_monitor g in
  charging ← charging_tier g;
  if charging : bool then
    if py_eq (py_get (ov_charge (old_values m)) "fast_charger_present" (PStr "")) (PStr "true")
    then Ok (g, 5)
    else Ok (g, 15)
  else if any_change then
    Ok (set_monitor g (set_count m 0), a_awake_poll_secs cfg)
  else
    let count := S (noChangesPollCount m) in
    Ok (set_monitor g (set_count m count), poll_time count).

(** [StateMonitor.check_states(interval)] *)
Definition check_states (cfg : config) (g : globals) (f : fetch) (now interval : Z)
  : result (globals * list event * Z) :=
  a ← check_states_try cfg g f now interval;
  match a with
  | Return g' v => Ok (g', [], v)
  | Proceed g' evs interval' any_change =>
      '(g'', v) ← check_states_tail cfg g' interval' any_change;
      Ok (g'', evs, v)
  end.

(** ** calculate_next_wakeup *)

(** [calculate_next_wakeup(current_wake_up_time, state_monitor)]; [now] is
    [int(time.time())]. [current_wake_up_time] only decides whether a line
    is logged. A start time that is a [bool] is returned as its number. *)
Definition calculate_next_wakeup (cfg : config) (now : Z) (m : monitor) : result Z :=
  let wakeup_time := now + a_maximum_sleep cfg in
  let charge := ov_charge (old_values m) in
  if py_truthy (py_get charge "scheduled_charging_pending" (PBool false)) then
    let scheduled_charge_time := py_get charge "scheduled_charging_start_time" (PInt 0) in
    match py_num scheduled_charge_time with
    | Some t => if (0 <? t) && (t <? wakeup_time) then Ok t else Ok wakeup_time
    | None => Raise TypeError
    end
  else Ok wakeup_time.

(** ** The main program loop *)

(** What [self.vehicle.wake_up()] does inside [StateMonitor.wake_up]. *)
Inductive wake_outcome :=
| WakeReturns
| WakeTimeout              (* polling.TimeoutException *)
| WakeRaises (e : exn).

(** What one pass of the loop takes from outside the program: the vehicle
    object [refresh_vehicle] finds in [self.connection.vehicles], the
    outcome of the two calls to the vehicle, and the clock at each place
    the pass reads it. *)
Record cycle_input := {
  in_vehicle : vehicle_t;
  in_fetch : fetch;
  in_wake : wake_outcome;
  t_busy : Z;          (* busy_since = int(time.time()) *)
  t_classify : Z;      (* the classifier, in request_state_group *)
  t_status : Z;        (* the classifier, for car_active_status *)
  t_forced : Z;        (* int(time.time()) > next_wakeup *)
  t_wake_forced : Z;   (* calculate_next_wakeup, forced refresh *)
  t_asleep : Z;        (* asleep_since = int(time.time()) *)
  t_wake_asleep : Z;   (* calculate_next_wakeup, car gone to sleep *)
  t_wake_online : Z;   (* calculate_next_wakeup, car awake *)
  t_ts : Z;            (* ts = int(time.time()) * 1000000000 *)
  t_proc : Z;          (* processing_time *)
  t_clamp_test : Z;    (* (int(time.time()) + poll_interval) > next_wakeup *)
  t_clamp_sub : Z      (* next_wakeup - int(time.time()) *)
}.

Definition set_poll_interval (g : globals) (v : Z) : globals :=
  {| a_vin := a_vin g; a_display_name := a_display_name g;
     poll_interval := v; asleep_since := asleep_since g;
     next_wakeup := next_wakeup g; previous_car_state := previous_car_state g;
     busy_since := busy_since g; car_active_status := car_active_status g;
     last_data_from_tesla := last_data_from_tesla g; first_run := first_run g;
     state_monitor := state_monitor g |}.

Definition set_asleep_since (g : globals) (v : option Z) : globals :=
  {| a_vin := a_vin g; a_display_name := a_display_name g;
     poll_interval := poll_interval g; asleep_since := v;
     next_wakeup := next_wakeup g; previous_car_state := previous_car_state g;
     busy_since := busy_since g; car_active_status := car_active_status g;
     last_data_from_tesla := last_data_from_tesla g; first_run := first_run g;
     state_monitor := state_monitor g |}.

Definition set_next_wakeup (g : globals) (v : Z) : globals :=
  {| a_vin := a_vin g; a_display_name := a_display_name g;
     poll_interval := poll_interval g; asleep_since := asleep_since g;
     next_wakeup := v; previous_car_state := previous_car_state g;
     busy_since := busy_since g; car_active_status := car_active_status g;
     last_data_from_tesla := last_data_from_tesla g; first_run := first_run g;
     state_monitor := state_monitor g |}.

Definition set_busy_since (g : globals) (v : Z) : globals :=
  {| a_vin := a_vin g; a_display_name := a_display_name g;
     poll_interval := poll_interval g; asleep_since := asleep_since g;
     next_wakeup := next_wakeup g; previous_car_state := previous_car_state g;
     busy_since := v; car_active_status := car_active_status g;
     last_data_from_tesla := last_data_from_tesla g; first_run := first_run g;
     state_monitor := state_monitor g |}.

Definition set_car_active_status (g : globals) (v : option string) : globals :=
  {| a_vin := a_vin g; a_display_name := a_display_name g;
     poll_interval := poll_interval g; asleep_since := asleep_since g;
     next_wakeup := next_wakeup g; previous_car_state := previous_car_state g;
     busy_since := busy_since g; car_active_status := v;
     last_data_from_tesla := last_data_from_tesla g; first_run := first_run g;
     state_monitor := state_monitor g |}.

(** [previous_car_state = state_monitor.vehicle['state']], [a_vin = ...],
    [a_display_name = ...] and, further down, [first_run = False]. *)
Definition track_car (g : globals) : globals :=
  let v := vehicle (state_monitor g) in
  {| a_vin := v_vin v; a_display_name := v_display_name v;
     poll_interval := poll_interval g; asleep_since := asleep_since g;
     next_wakeup := next_wakeup g; previous_car_state := v_state v;
     busy_since := busy_since g; car_active_status := car_active_status g;
     last_data_from_tesla := last_data_from_tesla g; first_run := false;
     state_monitor := state_monitor g |}.

(** The [if (int(time.time()) > next_wakeup) or first_run] block. *)
Definition forced_refresh (cfg : config) (inp : cycle_input) (g : globals)
  : result (globals * list event) :=
  if (next_wakeup g <? t_forced inp) || first_run g then
    w ← calculate_next_wakeup cfg (t_wake_forced inp) (state_monitor g);
    let g := set_next_wakeup g w in
    match in_wake inp with
    | WakeReturns => Ok (set_poll_interval g (a_awake_poll_secs cfg), [WakeUpCall])
    | WakeTimeout => Ok (g, [WakeUpCall])
    | WakeRaises e => Raise e
    end
  else Ok (g, []).

(** The three blocks "Car woke up", "Car gone to sleep", "Car awake". *)
Definition track_transitions (cfg : config) (inp : cycle_input) (g : globals)
  : result globals :=
  let st := v_state (vehicle (state_monitor g)) in
  let prev := previous_car_state g in
  let g := if py_eq prev (PStr "asleep") && py_eq st (PStr "online")
           then set_asleep_since (set_poll_interval g (a_awake_poll_secs cfg)) None
           else g in
  g ← (if py_eq st (PStr "asleep") && py_eq prev (PStr "online")
       then w ← calculate_next_wakeup cfg (t_wake_asleep inp) (state_monitor g);
            Ok (set_next_wakeup (set_asleep_since g (Some (t_asleep inp))) w)
       else Ok g);
  if py_eq st (PStr "online")
  then w ← calculate_next_wakeup cfg (t_wake_online inp) (state_monitor g);
       Ok (set_next_wakeup g w)
  else Ok g.

(** One pass of [while True], up to [first_run = False]. *)
Definition cycle_body (cfg : config) (g : globals) (inp : cycle_input)
  : result (globals * list event) :=
  let g := set_busy_since g (t_busy inp) in
  let g := set_monitor g (set_vehicle (state_monitor g) (in_vehicle inp)) in
  '(g, evs, v) ← check_states cfg g (in_fetch inp) (t_classify inp) (poll_interval g);
  let g := set_poll_interval g v in
  status ← ongoing_activity_status (old_values (state_monitor g)) (t_status inp);
  let g := set_car_active_status g (Some status) in
  '(g, evs_wake) ← forced_refresh cfg inp g;
  g ← track_transitions cfg inp g;
  let g := track_car g in
  let evs_state :=
    if a_dry_run cfg then []
    else [WriteVehicleState (a_vin g) (a_display_name g) (t_ts inp * 1000000000)
            (previous_car_state g)] in
  Ok (g, evs ++ evs_wake ++ evs_state).

(** The value handed to [time.sleep] at the end of the pass. *)
Definition sleep_arg (g : globals) (inp : cycle_input) : Z :=
  if next_wakeup g <? t_clamp_test inp + poll_interval g
  then next_wakeup g - t_clamp_sub inp
  else poll_interval g.

(** [time.sleep(secs)]: a negative length raises [ValueError]. *)
Definition time_sleep (secs : Z) : result unit :=
  if secs <? 0 then Raise ValueError else Ok ().

(** One pass of [while True]. [poll_interval] is an integer throughout, so
    the test [poll_interval != None] holds. *)
Definition main_cycle (cfg : config) (g : globals) (inp : cycle_input)
  : result (globals * list event) :=
  '(g, evs) ← cycle_body cfg g inp;
  let d := sleep_arg g inp in
  _ ← time_sleep d;
  Ok (set_poll_interval g d, evs ++ [Sleep d]).

(** The loop over the passes for which inputs are given. *)
Fixpoint main_loop (cfg : config) (g : globals) (inps : list cycle_input)
  : result (globals * list event) :=
  match inps with
  | [] => Ok (g, [])
  | inp :: rest =>
      '(g, evs) ← main_cycle cfg g inp;
      '(g, evs') ← main_loop cfg g rest;
      Ok (g, evs ++ evs')
  end.



(** ** The change test of the specification *)

(** The value the specification has stored for a field: the speed reads 0
    when absent, the gear-shift indicator keeps the stored value when
    absent, a negative charger voltage is replaced by 0. *)
Definition spec_corrected (element : string) (old_value new_value : pyval) : pyval :=
  let v :=
    match new_value with
    | PNone =>
        if String.eqb element "speed" then PInt 0
        else if String.eqb element "shift_state" then old_value
        else PNone
    | _ => new_value
    end in
  if String.eqb element "charger_voltage"
  then match py_num v with
       | Some x => if x <? 0 then PInt 0 else v
       | None => v
       end
  else v.

(** A field is changed when its corrected value differs from the stored
    one (an absent stored value is [None]). *)
Definition spec_field_changed (old : dict) (item : string * pyval) : bool :=
  let '(element, new_value) := item in
  let old_value := py_get old element PNone in
  negb (py_eq (spec_corrected element old_value new_value) old_value).

(** The specification's [applyUpdate] result for one cycle: some category
    whose timestamp advanced has a field, outside the volatile fields and
    the ignore set, that is changed. *)
Definition spec_any_changed (ov : old_values_t) (r : response) : bool :=
  existsb (fun c =>
    match r_group r c with
    | None => false
    | Some d =>
        let old := ov_get ov c in
        negb (py_eq (py_get old "timestamp" (PStr "")) (py_get d "timestamp" PNone))
        && existsb (fun item =>
                      negb (mem item.1 unscraped) && negb (mem item.1 a_ignore)
                      && spec_field_changed old item)
                   (map_to_list d)
    end) requests.

(** ** Sample configuration, states and responses *)

Definition sample_cfg : config :=
  {| a_awake_poll_secs := 2; a_maximum_sleep := 7200; a_allow_sleep := 1;
     a_dry_run := false; a_resolve_elevation := false |}.

Definition dict_of (l : list (string * pyval)) : dict := list_to_map l.

Definition sample_vehicle (state : string) : vehicle_t :=
  {| v_state := PStr state; v_display_name := PStr "car"; v_vin := PStr "5YJ" |}.

(** Globals in the middle of a run, around a given monitor. *)
Definition sample_globals (m : monitor) (interval wakeup : Z) : globals :=
  {| a_vin := PStr "5YJ"; a_display_name := PStr "car";
     poll_interval := interval; asleep_since := None;
     next_wakeup := wakeup; previous_car_state := v_state (vehicle m);
     busy_since := 0; car_active_status := None; last_data_from_tesla := PNone;
     first_run := false; state_monitor := m |}.

(** A store holding the five categories as read at time [ts]. *)
Definition sample_store (ts : Z) (charge climate drive gui veh : list (string * pyval))
  : old_values_t :=
  {| ov_charge := dict_of (("timestamp"%string, PInt ts) :: charge);
     ov_climate := dict_of (("timestamp"%string, PInt ts) :: climate);
     ov_drive := dict_of (("timestamp"%string, PInt ts) :: drive);
     ov_gui := dict_of (("timestamp"%string, PInt ts) :: gui);
     ov_vehicle := dict_of (("timestamp"%string, PInt ts) :: veh) |}.

(** A response with the five categories, each with its own timestamp. *)
Definition sample_response (state : string)
    (charge climate drive gui veh : Z * list (string * pyval)) : response :=
  {| r_state := Some (PStr state); r_display_name := Some (PStr "car");
     r_group := fun c =>
       let '(ts, l) := match c with
                       | charge_state => charge
                       | climate_state => climate
                       | drive_state => drive
                       | gui_settings => gui
                       | vehicle_state => veh
                       end in
       Some (dict_of (("timestamp"%string, PInt ts) :: l)) |}.

(** A scheduled charge is pending for time 1000; nothing else is going on. *)
Definition ov_scheduled : old_values_t :=
  sample_store 900
    [("charging_state", PStr "Stopped"); ("scheduled_charging_pending", PBool true);
     ("scheduled_charging_start_time", PInt 1000)]%string
    [] [("shift_state", PNone)]%string [] [].

(** The car is parked with the climate on; read at time 100. *)
Definition ov_conditioning : old_values_t :=
  sample_store 100
    [("charging_state", PStr "Complete"); ("charger_voltage", PInt 0)]%string
    [("is_climate_on", PBool true)]%string
    [("shift_state", PStr "P"); ("speed", PInt 0)]%string
    []
    [("center_display_state", PInt 0); ("odometer", PInt 5000)]%string.

(** The same readings again, taken at time 200. *)
Definition resp_conditioning_same : response :=
  sample_response "online"
    (200, [("charging_state", PStr "Complete"); ("charger_voltage", PInt 0)]%string)
    (200, [("is_climate_on", PBool true)]%string)
    (200, [("shift_state", PStr "P"); ("speed", PNone)]%string)
    (200, [])
    (200, [("center_display_state", PInt 0); ("odometer", PInt 5000)]%string).

(** The car is parked and idle; read at time 100. *)
Definition ov_parked : old_values_t :=
  sample_store 100
    [("charging_state", PStr "Complete"); ("charger_voltage", PInt 0)]%string
    [("is_climate_on", PBool false)]%string
    [("shift_state", PStr "P"); ("speed", PInt 0)]%string
    []
    [("center_display_state", PInt 0); ("odometer", PInt 5000)]%string.

(** At time 200 the odometer reads one more; the car is still idle. *)
Definition resp_parked_odometer : response :=
  sample_response "online"
    (200, [("charging_state", PStr "Complete"); ("charger_voltage", PInt 0)]%string)
    (200, [("is_climate_on", PBool false)]%string)
    (200, [("shift_state", PStr "P"); ("speed", PNone)]%string)
    (200, [])
    (200, [("center_display_state", PInt 0); ("odometer", PInt 5001)]%string).

Definition sample_monitor (ov : old_values_t) (state : string) (count : nat) : monitor :=
  {| old_values := ov; vehicle := sample_vehicle state; noChangesPollCount := count |}.

(** The value a call returns, without the state it leaves. *)
Definition returned {A B : Type} (x : result (A * B)) : result B :=
  '(_, b) ← x; Ok b.

(** The stored values the scheduler tests. *)
Definition stored_shift (g : globals) : pyval :=
  py_get (ov_drive (old_values (state_monitor g))) "shift_state" (PStr "").

Definition scheduled_pending (ov : old_values_t) : bool :=
  py_truthy (py_get (ov_charge ov) "scheduled_charging_pending" (PBool false)).

Definition scheduled_start (ov : old_values_t) : pyval :=
  py_get (ov_charge ov) "scheduled_charging_start_time" (PInt 0).

Definition fast_charger (g : globals) : bool :=
  py_eq (py_get (ov_charge (old_values (state_monitor g))) "fast_charger_present" (PStr ""))
        (PStr "true").

(** The car is asleep and unreachable, the store is idle, six cycles have
    passed without change, and the forced wake-up is due at [wakeup]. *)
Definition g_asleep (wakeup : Z) : globals :=
  sample_globals (sample_monitor ov_parked "asleep" 6) 120 wakeup.

(** A pass in which the vehicle does not answer and the clock reads [now]
    throughout. *)
Definition pass_unreachable (now : Z) : cycle_input :=
  {| in_vehicle := sample_vehicle "asleep";
     in_fetch := FetchRaise ContinuePollingError;
     in_wake := WakeTimeout;
     t_busy := now; t_classify := now; t_status := now; t_forced := now;
     t_wake_forced := now; t_asleep := now; t_wake_asleep := now; t_wake_online := now;
     t_ts := now; t_proc := now; t_clamp_test := now; t_clamp_sub := now |}.

(** Against [ov_parked] (read at time 100): the charge state is fresh, the
    climate state still carries timestamp 100, and the drive and vehicle
    states are fresh, the car now being in drive at speed 30. *)
Definition resp_stale_climate : response :=
  sample_response "online"
    (200, [("charging_state", PStr "Disconnected"); ("charger_voltage", PInt 0)]%string)
    (100, [("is_climate_on", PBool false)]%string)
    (200, [("shift_state", PStr "D"); ("speed", PInt 30)]%string)
    (200, [])
    (200, [("center_display_state", PInt 2); ("odometer", PInt 5001)]%string).

(** The measurement names of the points written to Influx. *)
Definition written (evs : list event) : list string :=
  omap (fun e => match e with WritePoints b => Some (measurement b) | _ => None end) evs.

(** ** Runs of cycles *)

(** One call [check_states(interval)]: what the fetch does, the clock, and
    the interval passed in. *)
Record call := {
  c_fetch : fetch;
  c_now : Z;
  c_interval : Z
}.

(** Between two calls the main loop changes neither the store nor the
    streak counter. *)
Definition same_schedule (g1 g2 : globals) : Prop :=
  old_values (state_monitor g2) = old_values (state_monitor g1) /\
  noChangesPollCount (state_monitor g2) = noChangesPollCount (state_monitor g1).

(** A cycle without change and outside the charging tier: the code after
    the [try] statement runs with [any_change] false and takes the branch
    of the interval ladder. *)
Definition unchanged_cycle (cfg : config) (g : globals) (c : call) : Prop :=
  exists g1 evs interval,
    check_states_try cfg g (c_fetch c) (c_now c) (c_interval c)
      = Ok (Proceed g1 evs interval false) /\
    charging_tier g1 = Ok false.

(** Consecutive unchanged cycles, with the intervals they return. *)
Inductive unchanged_run (cfg : config) : globals -> list call -> list Z -> globals -> Prop :=
| run_nil g : unchanged_run cfg g [] [] g
| run_cons g c g1 evs v g2 rest vs g3 :
    unchanged_cycle cfg g c ->
    check_states cfg g (c_fetch c) (c_now c) (c_interval c) = Ok (g1, evs, v) ->
    same_schedule g1 g2 ->
    unchanged_run cfg g2 rest vs g3 ->
    unchanged_run cfg g (c :: rest) (v :: vs) g3.

(** Successive calls of [check_states], each on the state the one before
    left: for every call, [any_change] after the [try] statement (when the
    call got that far) and the interval returned. *)
Fixpoint check_states_seq (cfg : config) (g : globals) (cs : list call)
  : result (list (option bool * Z)) :=
  match cs with
  | [] => Ok []
  | c :: rest =>
      a ← check_states_try cfg g (c_fetch c) (c_now c) (c_interval c);
      let changed := match a with
                     | Proceed _ _ _ any_change => Some any_change
                     | Return _ _ => None
                     end in
      '(g', _, v) ← check_states cfg g (c_fetch c) (c_now c) (c_interval c);
      l ← check_states_seq cfg g' rest;
      Ok ((changed, v) :: l)
  end.

(** The readings of [ov_parked] again, taken at time [ts]. *)
Definition resp_parked (ts : Z) : response :=
  sample_response "online"
    (ts, [("charging_state", PStr "Complete"); ("charger_voltage", PInt 0)]%string)
    (ts, [("is_climate_on", PBool false)]%string)
    (ts, [("shift_state", PStr "P"); ("speed", PNone)]%string)
    (ts, [])
    (ts, [("center_display_state", PInt 0); ("odometer", PInt 5000)]%string).

(** The car is plugged in and charging from a wall connector. *)
Definition resp_charging (ts : Z) : response :=
  sample_response "online"
    (ts, [("charging_state", PStr "Charging"); ("charger_voltage", PInt 240);
          ("charger_actual_current", PInt 32); ("fast_charger_present", PBool false)]%string)
    (ts, [("is_climate_on", PBool false)]%string)
    (ts, [("shift_state", PStr "P"); ("speed", PNone)]%string)
    (ts, [])
    (ts, [("center_display_state", PInt 0); ("odometer", PInt 5000)]%string).

(** The charge has ended and the charger voltage is back to 0. *)
Definition resp_charged (ts : Z) : response :=
  sample_response "online"
    (ts, [("charging_state", PStr "Complete"); ("charger_voltage", PInt 0);
          ("charger_actual_current", PInt 0); ("fast_charger_present", PBool false)]%string)
    (ts, [("is_climate_on", PBool false)]%string)
    (ts, [("shift_state", PStr "P"); ("speed", PNone)]%string)
    (ts, [])
    (ts, [("center_display_state", PInt 0); ("odometer", PInt 5000)]%string).

(** The charging state reads "Charging" while the gear-shift reads "D". *)
Definition resp_drive_charging (ts : Z) : response :=
  sample_response "online"
    (ts, [("charging_state", PStr "Charging"); ("charger_voltage", PInt 240);
          ("charger_actual_current", PInt 32)]%string)
    (ts, [("is_climate_on", PBool false)]%string)
    (ts, [("shift_state", PStr "D"); ("speed", PInt 0)]%string)
    (ts, [])
    (ts, [("center_display_state", PInt 2); ("odometer", PInt 5000)]%string).

(** The car is in drive and nothing is plugged in. *)
Definition resp_drive (ts : Z) : response :=
  sample_response "online"
    (ts, [("charging_state", PStr "Disconnected"); ("charger_voltage", PInt 0)]%string)
    (ts, [("is_climate_on", PBool false)]%string)
    (ts, [("shift_state", PStr "D"); ("speed", PInt 30)]%string)
    (ts, [])
    (ts, [("center_display_state", PInt 2); ("odometer", PInt 5000)]%string).

(** A charge is about to begin: the charging state reads "Starting". *)
Definition resp_starting (ts : Z) : response :=
  sample_response "online"
    (ts, [("charging_state", PStr "Starting"); ("charger_voltage", PInt 0);
          ("fast_charger_present", PBool true)]%string)
    (ts, [("is_climate_on", PBool false)]%string)
    (ts, [("shift_state", PStr "P"); ("speed", PNone)]%string)
    (ts, [])
    (ts, [("center_display_state", PInt 0); ("odometer", PInt 5000)]%string).

(** The car is online and idle, no cycle without change behind it. *)
Definition g_parked : globals :=
  sample_globals (sample_monitor ov_parked "online" 0) 2 9000.

(** The labels the classifier returns. *)
Definition labels : list string :=
  ["driving"; "charging"; "conditioning"; "screen on (normal)"; "screen on (charging)";
   "screen on (sentry)"; "screen on (dog mode)"; "screen on"; "idle"]%string.

(** The two updates of [self.noChangesPollCount]. *)
Definition reset_streak (g : globals) : globals :=
  set_monitor g (set_count (state_monitor g) 0).

Definition extend_streak (g : globals) : globals :=
  set_monitor g (set_count (state_monitor g) (S (noChangesPollCount (state_monitor g)))).

Definition mk_call (f : fetch) (now interval : Z) : call :=
  {| c_fetch := f; c_now := now; c_interval := interval |}.

(** The globals on which a pass calls [check_states]. *)
Definition prepared (g : globals) (inp : cycle_input) : globals :=
  set_monitor (set_busy_since g (t_busy inp))
    (set_vehicle (state_monitor (set_busy_since g (t_busy inp))) (in_vehicle inp)).

(** ** Readings of the store used in the statements below *)

(** The first test of the classifier:
    [shift == 'R' or shift == 'D' or shift == 'N' or old_speed > 0]. *)
Definition moving (ov : old_values_t) : result bool :=
  let shift := py_get (ov_drive ov) "shift_state" (PStr "") in
  let old_speed := py_or (py_get (ov_drive ov) "speed" (PInt 0)) (PInt 0) in
  if shift_in_gear shift || py_eq shift (PStr "N") then Ok true else py_gt old_speed 0.


(** The car rolls in neutral at speed 12. *)
Definition ov_neutral : old_values_t :=
  sample_store 100
    [("charging_state", PStr "Disconnected")]%string
    []
    [("shift_state", PStr "N"); ("speed", PInt 12)]%string
    [] [].

(** The charge is complete but the charger still reports 12 V and 1 A. *)
Definition ov_tail : old_values_t :=
  sample_store 100
    [("charging_state", PStr "Complete"); ("charger_voltage", PInt 12);
     ("charger_actual_current", PInt 1)]%string
    []
    [("shift_state", PNone); ("speed", PNone)]%string
    [] [].

(** The charging state was read as null. *)
Definition ov_null_charging : old_values_t :=
  sample_store 100
    [("charging_state", PNone)]%string
    []
    [("shift_state", PStr "P"); ("speed", PInt 0)]%string
    [] [].


(** ** The element loop, field by field *)

(** Whether the loop passes over an item and stores nothing for it: a name
    in the tuple of unscraped elements, or an empty [vehicle_name]. *)
Definition passed_over (element : string) (new_value : pyval) : bool :=
  mem element unscraped
  || (String.eqb element "vehicle_name" && negb (py_truthy new_value)).

(** The value the loop stores for an item it does not pass over: the
    [elif] chain (speed, missing reads), then the validity check. *)
Definition settled (element : string) (old_value new_value : pyval) : result pyval :=
  let new_value :=
    if String.eqb element "speed" && py_eq new_value PNone then PInt 0
    else if negb (py_eq new_value old_value) then
      if py_eq new_value PNone then
        if mem element ["shift_state"%string] then old_value else new_value
      else new_value
    else new_value in
  match new_value with
  | PNone => Ok new_value
  | _ =>
      if negb (mem element a_ignore) then
        violated ← match find_check element a_validity_checks with
                   | Some vc => vc_eval vc new_value
                   | None => Ok false
                   end;
        Ok (if violated : bool
            then match find_check element a_validity_checks with
                 | Some vc => vc_set vc
                 | None => new_value
                 end
            else new_value)
      else Ok new_value
  end.

(** Whether a stored value also goes into [json_body['fields']]. *)
Definition reported (element : string) (v : pyval) : bool :=
  match v with
  | PNone => false
  | _ => negb (mem element a_ignore)
  end.

(** Fields fit to be written: no [None], no ignored name, no unscraped
    name. *)
Definition clean_fields (f : dict) : Prop :=
  forall k w, f !! k = Some w ->
    w <> PNone /\ mem k a_ignore = false /\ mem k unscraped = false.

(** What holds of every call [request_state_group] records, [ov] being
    the store it leaves: a point is written only outside dry-run mode, has
    at least one field, its fields are fit to be written, and each carries
    the value now stored under that name in the category the measurement
    is named after (one of [done]); an elevation thread is started only
    when elevation is to be resolved; no other call is made. *)
Definition point_ok (cfg : config) (ov : old_values_t) (done : list category) (e : event)
  : Prop :=
  match e with
  | WritePoints b =>
      a_dry_run cfg = false /\ jb_fields b <> ∅ /\ clean_fields (jb_fields b) /\
      exists c, c ∈ done /\ measurement b = category_name c /\
                forall k w, jb_fields b !! k = Some w -> ov_get ov c !! k = Some w
  | StartElevator _ _ _ _ _ => a_resolve_elevation cfg = true
  | _ => False
  end.

(** The state of the category loop when [request_state_group] enters it. *)
Definition gs_start (g : globals) : group_st :=
  {| gs_globals := g; gs_lat := PNone; gs_long := PNone; gs_events := [] |}.

(** A reading at time 200 with glitches: the charger voltage is negative,
    speed, gear-shift and odometer are null, and the volatile [gps_as_of]
    is present. *)
Definition resp_glitch : response :=
  sample_response "online"
    (200, [("charging_state", PStr "Complete"); ("charger_voltage", PInt (-5))]%string)
    (200, [("is_climate_on", PBool false)]%string)
    (200, [("shift_state", PNone); ("speed", PNone); ("gps_as_of", PInt 199)]%string)
    (200, [])
    (200, [("center_display_state", PInt 0); ("odometer", PNone)]%string).

(** The module-level variables [check_states] does not assign. *)
Definition loop_vars (g : globals)
  : pyval * pyval * Z * option Z * Z * pyval * Z * option string * bool :=
  (a_vin g, a_display_name g, poll_interval g, asleep_since g, next_wakeup g,
   previous_car_state g, busy_since g, car_active_status g, first_run g).

(** The lengths handed to [time.sleep], in order. *)
Definition sleeps (evs : list event) : list Z :=
  omap (fun e => match e with Sleep d => Some d | _ => None end) evs.

(** The forced refresh is due: the deadline is past, or this is the first
    pass. *)
Definition refresh_due (g : globals) (inp : cycle_input) : bool :=
  (next_wakeup g <? t_forced inp) || first_run g.

(** A pass in which the Tesla API answers with an error. *)
Definition pass_api_error (now : Z) : cycle_input :=
  {| in_vehicle := sample_vehicle "online";
     in_fetch := FetchRaise HTTPError;
     in_wake := WakeTimeout;
     t_busy := now; t_classify := now; t_status := now; t_forced := now;
     t_wake_forced := now; t_asleep := now; t_wake_asleep := now; t_wake_online := now;
     t_ts := now; t_proc := now; t_clamp_test := now; t_clamp_sub := now |}.

(** A pass with a successful fetch of [r], the vehicle waking when asked,
    the clock reading [now] throughout. *)
Definition pass_fetched (r : response) (now : Z) : cycle_input :=
  {| in_vehicle := sample_vehicle "online";
     in_fetch := FetchOk r;
     in_wake := WakeReturns;
     t_busy := now; t_classify := now; t_status := now; t_forced := now;
     t_wake_forced := now; t_asleep := now; t_wake_asleep := now; t_wake_online := now;
     t_ts := now; t_proc := now; t_clamp_test := now; t_clamp_sub := now |}.

(** The configuration with sleeping disallowed, and the one for dry runs. *)
Definition cfg_no_sleep : config :=
  {| a_awake_poll_secs := 2; a_maximum_sleep := 7200; a_allow_sleep := 0;
     a_dry_run := false; a_resolve_elevation := false |}.

Definition cfg_dry : config :=
  {| a_awake_poll_secs := 2; a_maximum_sleep := 7200; a_allow_sleep := 1;
     a_dry_run := true; a_resolve_elevation := true |}.

(** A scheduled charge is pending but its start time was read as null. *)
Definition ov_pending_null : old_values_t :=
  sample_store 900
    [("charging_state", PStr "Stopped"); ("scheduled_charging_pending", PBool true);
     ("scheduled_charging_start_time", PNone)]%string
    [] [("shift_state", PStr "P")]%string [] [].

(** A response that still shows a scheduled charge pending for time 1000. *)
Definition resp_scheduled (ts : Z) : response :=
  sample_response "online"
    (ts, [("charging_state", PStr "Stopped"); ("scheduled_charging_pending", PBool true);
          ("scheduled_charging_start_time", PInt 1000)]%string)
    (ts, [("is_climate_on", PBool false)]%string)
    (ts, [("shift_state", PStr "P"); ("speed", PNone)]%string)
    (ts, [])
    (ts, [("center_display_state", PInt 0)]%string).

(** A response without the vehicle's [state] item. *)
Definition resp_no_state : response :=
  {| r_state := None; r_display_name := Some (PStr "car");
     r_group := r_group (resp_parked 200) |}.

(** Whether the stored fast-charger flag is set: the truth value of
    [self.old_values['charge_state'].get('fast_charger_present', '')]. *)
Definition fast_charger_flag (g : globals) : bool :=
  py_truthy
    (py_get (ov_charge (old_values (state_monitor g))) "fast_charger_present" (PStr "")).


(** * Properties *)

(** Case analysis on the result of the first call of a sequence. *)
Ltac case_bind :=
  match goal with
  | H : context [mbind _ ?x] |- _ =>
      let E := fresh "E" in
      destruct x eqn:E; cbn [mbind result_bind] in H; try discriminate H
  end.

Ltac inv_ok H := injection H as H; subst.

(** ** The classifier *)

Lemma lower_label l : In l labels -> lower l = l.
Proof.
  unfold labels. simpl.
  intros H. repeat (destruct H as [<- | H]; [reflexivity |]). destruct H.
Qed.

Lemma ongoing_activity_status_label ov now l :
  ongoing_activity_status ov now = Ok l -> In l labels.
Proof.
  unfold ongoing_activity_status. intros H.
  repeat match type of H with
  | mbind _ ?x = _ => destruct x as [[]|] eqn:?; simpl in H; try discriminate H
  | (if ?c then _ else _) = _ => destruct c eqn:?
  | Ok _ = Ok _ => injection H as <-
  end; unfold labels; simpl; tauto.
Qed.

(** A gear-shift state of reverse or drive classifies as driving, whatever
    else is stored and whatever the clock reads. *)
Lemma in_gear_driving ov now :
  shift_in_gear (py_get (ov_drive ov) "shift_state" (PStr "")) = true ->
  ongoing_activity_status ov now = Ok "driving"%string.
Proof.
  intros H. unfold ongoing_activity_status. rewrite H. reflexivity.
Qed.

(** The classifier reads the clock only for the scheduled-charge rule. *)
Lemma ongoing_activity_status_clock ov now1 now2 :
  scheduled_pending ov = false \/
  py_abs_diff_le (scheduled_start ov) now1 2 = py_abs_diff_le (scheduled_start ov) now2 2 ->
  ongoing_activity_status ov now1 = ongoing_activity_status ov now2.
Proof.
  unfold scheduled_pending, scheduled_start, ongoing_activity_status.
  intros [H | H]; rewrite H; reflexivity.
Qed.

(** C10, as stated, fails: with a scheduled charge pending for time 1000
    the same store is classified charging at time 1000 and idle at time
    2000. *)
Lemma classify_reads_the_clock :
  ongoing_activity_status ov_scheduled 1000 = Ok "charging"%string /\
  ongoing_activity_status ov_scheduled 2000 = Ok "idle"%string.
Proof. split; reflexivity. Qed.

(** C10 (amended): the classifier is a function of the stored snapshot and
    of the clock; two evaluations on the same store agree whenever no
    scheduled charge is pending, or the two clock readings fall on the
    same side of the two-second window around the scheduled start. *)
Theorem classify_same_store ov now1 now2 :
  scheduled_pending ov = false \/
  py_abs_diff_le (scheduled_start ov) now1 2 = py_abs_diff_le (scheduled_start ov) now2 2 ->
  ongoing_activity_status ov now1 = ongoing_activity_status ov now2.
Proof. apply ongoing_activity_status_clock. Qed.

Lemma classify_same_store_witness :
  ongoing_activity_status ov_parked 1000 = ongoing_activity_status ov_parked 2000.
Proof. apply (classify_same_store ov_parked 1000 2000). left. reflexivity. Defined.

(** ** calculate_next_wakeup *)




(** ** request_state_group *)

(** What [request_state_group] returns is the classifier's verdict on the
    store it leaves. *)
Lemma request_state_group_result cfg g r now g' evs b :
  request_state_group cfg g r now = Ok (g', evs, b) ->
  exists label,
    ongoing_activity_status (old_values (state_monitor g')) now = Ok label /\
    b = negb (String.eqb label "idle").
Proof.
  unfold request_state_group. intros H.
  do 3 case_bind. inv_ok H.
  eexists. split; [eassumption |].
  erewrite lower_label; [reflexivity |].
  eapply ongoing_activity_status_label; eassumption.
Qed.

(** C1, as stated, fails in both directions. With the climate on, a cycle
    whose readings all equal the stored ones returns true; with the car
    idle, a cycle in which the odometer moved returns false. *)
Lemma request_state_group_not_a_change_test :
  (returned (request_state_group sample_cfg
               (sample_globals (sample_monitor ov_conditioning "online" 0) 2 9000)
               resp_conditioning_same 200) = Ok true /\
   spec_any_changed ov_conditioning resp_conditioning_same = false) /\
  (returned (request_state_group sample_cfg
               (sample_globals (sample_monitor ov_parked "online" 0) 2 9000)
               resp_parked_odometer 200) = Ok false /\
   spec_any_changed ov_parked resp_parked_odometer = true).
Proof. repeat split; vm_compute; reflexivity. Qed.

(** C1 (amended): [request_state_group] returns true if and only if the
    activity label the classifier gives the updated store is not idle;
    when that label is idle it returns false. *)
Theorem request_state_group_returns_activity cfg g r now g' evs b :
  request_state_group cfg g r now = Ok (g', evs, b) ->
  exists label,
    ongoing_activity_status (old_values (state_monitor g')) now = Ok label /\
    (b = true <-> label <> "idle"%string) /\
    (label = "idle"%string -> b = false).
Proof.
  intros H. destruct (request_state_group_result _ _ _ _ _ _ _ H) as (label & Hl & ->).
  exists label. split; [exact Hl |].
  destruct (String.eqb_spec label "idle"); simpl; split; try tauto; try congruence.
  intros; split; congruence.
Qed.

Lemma request_state_group_returns_activity_witness :
  match request_state_group sample_cfg
          (sample_globals (sample_monitor ov_conditioning "online" 0) 2 9000)
          resp_conditioning_same 200 with
  | Ok (g', evs, b) =>
      exists label,
        ongoing_activity_status (old_values (state_monitor g')) 200 = Ok label /\
        (b = true <-> label <> "idle"%string) /\
        (label = "idle"%string -> b = false)
  | Raise _ => False
  end.
Proof.
  destruct (request_state_group sample_cfg
              (sample_globals (sample_monitor ov_conditioning "online" 0) 2 9000)
              resp_conditioning_same 200) as [[[g' evs] b] | e] eqn:E.
  - exact (request_state_group_returns_activity _ _ _ _ _ _ _ E).
  - vm_compute in E. discriminate E.
Defined.

(** A category whose timestamp is the stored one ends the whole loop: the
    categories after it are left as they were. *)
Lemma process_requests_break cfg r c rest gs gs' :
  process_request cfg r c gs = Ok (inl gs') ->
  process_requests cfg r (c :: rest) gs = Ok gs'.
Proof. intros H. simpl. rewrite H. reflexivity. Qed.

Lemma process_request_stale cfg r c gs d t :
  r_group r c = Some d ->
  d !! "timestamp"%string = Some t ->
  py_eq (py_get (ov_get (old_values (state_monitor (gs_globals gs))) c) "timestamp" (PStr "")) t
    = true ->
  process_request cfg r c gs =
  Ok (inl {| gs_globals := set_last_data (gs_globals gs) t; gs_lat := gs_lat gs;
             gs_long := gs_long gs; gs_events := gs_events gs |}).
Proof.
  intros Hd Ht Hs. unfold process_request. rewrite Hd. simpl. rewrite Ht. simpl.
  rewrite Hs. reflexivity.
Qed.

(** C2 (the code at the failing input): the climate state, second in
    [self.requests], carries the stored timestamp; the drive and vehicle
    states after it have advanced (the car is in drive) but are not
    processed: the store keeps their old contents, only the charge state is
    written, and the cycle reports no activity. *)
Theorem stale_category_stops_later_categories :
  match request_state_group sample_cfg
          (sample_globals (sample_monitor ov_parked "online" 0) 2 9000)
          resp_stale_climate 200 with
  | Ok (g', evs, b) =>
      ov_drive (old_values (state_monitor g')) = ov_drive ov_parked /\
      ov_vehicle (old_values (state_monitor g')) = ov_vehicle ov_parked /\
      ov_charge (old_values (state_monitor g')) !! "charging_state"%string
        = Some (PStr "Disconnected") /\
      written evs = ["charge_state"%string] /\
      b = false
  | Raise _ => False
  end.
Proof. vm_compute. repeat split; reflexivity. Qed.

(** ** check_states *)

(** The code after the [try] statement, by cases: the charging tier, a
    cycle with change, a cycle without. The interval handed in plays no
    part in the result. *)
Lemma check_states_tail_cases cfg g interval any_change charging :
  charging_tier g = Ok charging ->
  check_states_tail cfg g interval any_change =
  Ok (if charging then (g, if fast_charger g then 5 else 15)
      else if any_change then (reset_streak g, a_awake_poll_secs cfg)
      else (extend_streak g, poll_time (S (noChangesPollCount (state_monitor g))))).
Proof.
  intros H. unfold check_states_tail. rewrite H. simpl.
  destruct charging; [unfold fast_charger; destruct (py_eq _ _); reflexivity |].
  destruct any_change; reflexivity.
Qed.

Lemma check_states_proceed cfg g f now interval g1 evs interval1 any_change :
  check_states_try cfg g f now interval = Ok (Proceed g1 evs interval1 any_change) ->
  check_states cfg g f now interval =
  '(g2, v) ← check_states_tail cfg g1 interval1 any_change; Ok (g2, evs, v).
Proof. intros H. unfold check_states. rewrite H. reflexivity. Qed.

(** How a successful fetch leaves the [try] statement. *)
Lemma check_states_try_fetched cfg g r now interval g1 evs b :
  request_state_group cfg g r now = Ok (g1, evs, b) ->
  check_states_try cfg g (FetchOk r) now interval =
  Ok (if shift_in_gear (stored_shift g1)
      then Proceed g1 evs (a_awake_poll_secs cfg) true
      else Proceed g1 evs interval b).
Proof.
  intros H. unfold check_states_try. rewrite H. simpl. unfold stored_shift.
  destruct (shift_in_gear _); reflexivity.
Qed.

Lemma check_states_try_fetched_inv cfg g r now interval g1 evs interval1 any_change :
  check_states_try cfg g (FetchOk r) now interval = Ok (Proceed g1 evs interval1 any_change) ->
  exists b, request_state_group cfg g r now = Ok (g1, evs, b) /\
            any_change = (shift_in_gear (stored_shift g1) || b).
Proof.
  unfold check_states_try. intros H.
  destruct (request_state_group cfg g r now) as [[[g' evs'] b] |] eqn:E;
    simpl in H; [| discriminate H].
  exists b. unfold stored_shift.
  destruct (shift_in_gear _) eqn:S; injection H as -> -> _ <-; rewrite ?S; auto.
Qed.

(** C3, as stated, fails: with the gear-shift at "D" and the charging state
    at "Charging" the classifier says driving, yet the interval returned is
    the charging tier's 15, while [awakePollInterval] is 2. *)
Lemma driving_gets_charging_tier :
  match check_states sample_cfg g_parked (FetchOk (resp_drive_charging 200)) 200 2 with
  | Ok (g', _, v) =>
      stored_shift g' = PStr "D" /\
      ongoing_activity_status (old_values (state_monitor g')) 200 = Ok "driving"%string /\
      v = 15 /\ a_awake_poll_secs sample_cfg = 2
  | Raise _ => False
  end.
Proof. vm_compute. repeat split; reflexivity. Qed.

(** C3 (amended): whenever the stored gear-shift is "D" or "R" the
    classifier returns driving; and in a cycle whose fetch succeeds and
    leaves such a state, [check_states] returns [awakePollInterval] (and
    resets the streak) provided the stored charging state is not
    "charging" in any letter case. *)
Theorem driving_dominance cfg g r now interval g1 evs b :
  request_state_group cfg g r now = Ok (g1, evs, b) ->
  shift_in_gear (stored_shift g1) = true ->
  (forall now', ongoing_activity_status (old_values (state_monitor g1)) now'
                = Ok "driving"%string) /\
  (charging_tier g1 = Ok false ->
   check_states cfg g (FetchOk r) now interval
   = Ok (reset_streak g1, evs, a_awake_poll_secs cfg)).
Proof.
  intros Hr Hs. split.
  - intros now'. apply in_gear_driving. exact Hs.
  - intros Hc.
    pose proof (check_states_try_fetched cfg g r now interval _ _ _ Hr) as Ht.
    rewrite Hs in Ht.
    rewrite (check_states_proceed _ _ _ _ _ _ _ _ _ Ht).
    rewrite (check_states_tail_cases _ _ _ _ _ Hc). reflexivity.
Qed.

Lemma driving_dominance_witness :
  match request_state_group sample_cfg g_parked (resp_drive 200) 200 with
  | Ok (g1, evs, b) =>
      shift_in_gear (stored_shift g1) = true /\
      ongoing_activity_status (old_values (state_monitor g1)) 0 = Ok "driving"%string /\
      check_states sample_cfg g_parked (FetchOk (resp_drive 200)) 200 120
      = Ok (reset_streak g1, evs, 2)
  | Raise _ => False
  end.
Proof.
  destruct (request_state_group sample_cfg g_parked (resp_drive 200) 200)
    as [[[g1 evs] b] | e] eqn:E; [| vm_compute in E; discriminate E].
  assert (Hs : shift_in_gear (stored_shift g1) = true).
  { vm_compute in E. injection E as <- _ _. reflexivity. }
  assert (Hc : charging_tier g1 = Ok false).
  { vm_compute in E. injection E as <- _ _. reflexivity. }
  destruct (driving_dominance sample_cfg g_parked (resp_drive 200) 200 120 g1 evs b E Hs)
    as [H1 H2].
  split; [exact Hs |]. split; [apply H1 | apply H2; exact Hc].
Defined.

(** C4, as stated, fails: the car is idle and unreachable, the previous
    interval is 120 and no unchanged cycle has passed yet; the timed-out
    cycle returns the first ladder value 2, not 120. *)
Lemma timeout_takes_ladder_value :
  returned (check_states sample_cfg g_parked (FetchRaise ContinuePollingError) 200 120)
  = Ok 2.
Proof. reflexivity. Qed.

(** C4 (amended): when the fetch times out, [check_states] marks the
    vehicle asleep, leaves the store as it was, and computes the interval
    from the stored data with [any_change] false: the charging tier when
    the stored charging state is "charging", otherwise the streak is
    incremented and the ladder value for it is returned. The interval
    passed in is not part of the result. *)
Theorem timeout_cycle cfg g now interval charging :
  charging_tier g = Ok charging ->
  check_states cfg g (FetchRaise ContinuePollingError) now interval =
  Ok (if charging then assume_asleep g else extend_streak (assume_asleep g),
      [],
      if charging then (if fast_charger g then 5 else 15)
      else poll_time (S (noChangesPollCount (state_monitor g)))).
Proof.
  intros Hc.
  assert (Hc' : charging_tier (assume_asleep g) = Ok charging) by exact Hc.
  unfold check_states. simpl.
  rewrite (check_states_tail_cases _ _ _ _ _ Hc'). destruct charging; reflexivity.
Qed.

Lemma timeout_cycle_witness :
  check_states sample_cfg g_parked (FetchRaise ContinuePollingError) 200 120 =
  Ok (extend_streak (assume_asleep g_parked), [], 2).
Proof.
  apply (timeout_cycle sample_cfg g_parked 200 120 false). reflexivity.
Defined.

(** C6, as stated, fails: the charging state reads "Starting" and the car
    is parked; the classifier says charging, and the interval returned is
    [awakePollInterval] (2), neither 5 nor 15. *)
Lemma starting_is_not_in_the_charging_tier :
  match check_states sample_cfg g_parked (FetchOk (resp_starting 200)) 200 2 with
  | Ok (g', _, v) =>
      ongoing_activity_status (old_values (state_monitor g')) 200 = Ok "charging"%string /\
      shift_in_gear (stored_shift g') = false /\
      v = 2
  | Raise _ => False
  end.
Proof. vm_compute. repeat split; reflexivity. Qed.

Lemma unset_flag_is_not_true v : py_truthy v = false -> py_eq v (PStr "true") = false.
Proof.
  destruct v as [| b | n | s]; simpl; try reflexivity.
  intros H. apply negb_false_iff, String.eqb_eq in H. subst s. reflexivity.
Qed.

(** C6 (amended): in every cycle that gets past the fetch step with the
    stored charging state equal to "charging" in any letter case,
    [check_states] returns a charging-tier interval, 5 or 15 seconds, and
    15 seconds when the fast-charger flag is not set. A state the
    classifier labels charging for another reason ("starting", the
    residual-voltage tail, an imminent scheduled charge) is not in that
    tier: after a successful fetch the cycle counts as changed and returns
    [awakePollInterval]. *)
Theorem charging_tier_interval cfg g f now interval g1 evs interval1 any_change :
  check_states_try cfg g f now interval = Ok (Proceed g1 evs interval1 any_change) ->
  (charging_tier g1 = Ok true ->
   exists v, check_states cfg g f now interval = Ok (g1, evs, v) /\
             (v = 5 \/ v = 15) /\
             (fast_charger_flag g1 = false -> v = 15)) /\
  (charging_tier g1 = Ok false ->
   (exists r, f = FetchOk r) ->
   ongoing_activity_status (old_values (state_monitor g1)) now = Ok "charging"%string ->
   check_states cfg g f now interval = Ok (reset_streak g1, evs, a_awake_poll_secs cfg)).
Proof.
  intros Ht. rewrite (check_states_proceed _ _ _ _ _ _ _ _ _ Ht). split.
  - intros Hc. rewrite (check_states_tail_cases _ _ _ _ _ Hc).
    exists (if fast_charger g1 then 5 else 15). split; [reflexivity |]. split.
    + destruct (fast_charger g1); auto.
    + intros Hf. unfold fast_charger. unfold fast_charger_flag in Hf.
      rewrite (unset_flag_is_not_true _ Hf). reflexivity.
  - intros Hc [r ->] Hl.
    destruct (check_states_try_fetched_inv _ _ _ _ _ _ _ _ _ Ht) as (b & Hr & ->).
    destruct (request_state_group_result _ _ _ _ _ _ _ Hr) as (l & Hl' & ->).
    rewrite Hl in Hl'. injection Hl' as <-.
    rewrite (check_states_tail_cases _ _ _ _ _ Hc). simpl.
    rewrite orb_true_r. reflexivity.
Qed.

Lemma charging_tier_interval_witness :
  match check_states_try sample_cfg g_parked (FetchOk (resp_charging 200)) 200 2 with
  | Ok (Proceed g1 evs _ _) =>
      charging_tier g1 = Ok true /\ fast_charger_flag g1 = false /\
      check_states sample_cfg g_parked (FetchOk (resp_charging 200)) 200 2 = Ok (g1, evs, 15)
  | _ => False
  end.
Proof.
  destruct (check_states_try sample_cfg g_parked (FetchOk (resp_charging 200)) 200 2)
    as [[g1 evs i1 ch | g1 v] | e] eqn:E; try (vm_compute in E; discriminate E).
  assert (Hc : charging_tier g1 = Ok true).
  { vm_compute in E. injection E as <- _ _ _. reflexivity. }
  assert (Hf : fast_charger_flag g1 = false).
  { vm_compute in E. injection E as <- _ _ _. reflexivity. }
  split; [exact Hc |]. split; [exact Hf |].
  destruct (proj1 (charging_tier_interval _ _ _ _ _ _ _ _ _ E) Hc) as (v & Hv & _ & H15).
  rewrite Hv, (H15 Hf). reflexivity.
Defined.

(** ** The interval ladder *)

(** Nothing in [request_state_group] touches the streak counter. *)
Lemma process_request_count cfg r c gs o :
  process_request cfg r c gs = Ok o ->
  noChangesPollCount (state_monitor (gs_globals (match o with inl x | inr x => x end)))
  = noChangesPollCount (state_monitor (gs_globals gs)).
Proof.
  unfold process_request. intros H.
  do 2 case_bind.
  destruct (py_eq _ _); [inv_ok H; reflexivity |].
  do 2 case_bind. inv_ok H. reflexivity.
Qed.

Lemma process_requests_count cfg r reqs : forall gs gs',
  process_requests cfg r reqs gs = Ok gs' ->
  noChangesPollCount (state_monitor (gs_globals gs'))
  = noChangesPollCount (state_monitor (gs_globals gs)).
Proof.
  induction reqs as [| c rest IH]; intros gs gs' H; simpl in H.
  - inv_ok H. reflexivity.
  - case_bind. pose proof (process_request_count _ _ _ _ _ E) as Hc.
    destruct a as [gs1 | gs1].
    + inv_ok H. exact Hc.
    + rewrite (IH _ _ H). exact Hc.
Qed.

Lemma request_state_group_count cfg g r now g' evs b :
  request_state_group cfg g r now = Ok (g', evs, b) ->
  noChangesPollCount (state_monitor g') = noChangesPollCount (state_monitor g).
Proof.
  unfold request_state_group. intros H. do 3 case_bind. inv_ok H.
  rewrite (process_requests_count _ _ _ _ _ E0). simpl.
  unfold update_vehicle_from_response in E. do 2 case_bind. inv_ok E. reflexivity.
Qed.

Lemma check_states_try_count cfg g f now interval g1 evs interval1 any_change :
  check_states_try cfg g f now interval = Ok (Proceed g1 evs interval1 any_change) ->
  noChangesPollCount (state_monitor g1) = noChangesPollCount (state_monitor g).
Proof.
  destruct f as [r | e]; intros H.
  - destruct (check_states_try_fetched_inv _ _ _ _ _ _ _ _ _ H) as (b & Hr & _).
    exact (request_state_group_count _ _ _ _ _ _ _ Hr).
  - destruct e; simpl in H; try discriminate H. inv_ok H. reflexivity.
Qed.

(** An unchanged cycle returns the ladder value of the incremented streak. *)
Lemma unchanged_cycle_step cfg g c g1 evs v :
  unchanged_cycle cfg g c ->
  check_states cfg g (c_fetch c) (c_now c) (c_interval c) = Ok (g1, evs, v) ->
  v = poll_time (S (noChangesPollCount (state_monitor g))) /\
  noChangesPollCount (state_monitor g1) = S (noChangesPollCount (state_monitor g)).
Proof.
  intros (g' & evs' & interval' & Ht & Hc) H.
  rewrite (check_states_proceed _ _ _ _ _ _ _ _ _ Ht) in H.
  rewrite (check_states_tail_cases _ _ _ _ _ Hc) in H. simpl in H.
  rewrite (check_states_try_count _ _ _ _ _ _ _ _ _ Ht) in H.
  inv_ok H. simpl. rewrite (check_states_try_count _ _ _ _ _ _ _ _ _ Ht). auto.
Qed.

Lemma unchanged_run_intervals cfg g cs vs g' :
  unchanged_run cfg g cs vs g' ->
  vs = map poll_time (seq (S (noChangesPollCount (state_monitor g))) (length cs)) /\
  noChangesPollCount (state_monitor g')
  = (noChangesPollCount (state_monitor g) + length cs)%nat.
Proof.
  induction 1 as [g | g c g1 evs v g2 rest vs g3 Hu Hc [_ Hs] _ [IHv IHn]]; simpl.
  - split; [reflexivity | lia].
  - destruct (unchanged_cycle_step _ _ _ _ _ _ Hu Hc) as [-> Hn].
    rewrite Hs, Hn in IHv, IHn. split; [congruence | lia].
Qed.

(** Reading the ladder: entry [k] while there is one, 120 past the end. *)
Lemma poll_time_S k : poll_time (S k) = nth k pollTimes 120.
Proof.
  unfold poll_time. rewrite Nat.sub_1_r. simpl Nat.pred.
  destruct (Z.ltb_spec (Z.of_nat (S k) - 1) (Z.of_nat (length pollTimes))) as [Hlt | Hge].
  - apply nth_indep. lia.
  - rewrite (nth_overflow pollTimes 120) by lia. reflexivity.
Qed.

Lemma map_nth_seq {A : Type} (l : list A) (d : A) : forall n,
  map (fun k => nth k l d) (seq 0 n) = firstn n l ++ repeat d (n - length l).
Proof.
  induction l as [| a l IH]; intros n.
  - rewrite firstn_nil, Nat.sub_0_r. simpl.
    generalize 0%nat. induction n as [| n IHn]; intros s; simpl; [reflexivity |].
    rewrite IHn. destruct s; reflexivity.
  - destruct n as [| n]; [reflexivity |].
    simpl. f_equal. rewrite <- seq_shift, map_map. apply IH.
Qed.

Lemma ladder_values n :
  map poll_time (seq 1 n) = firstn n pollTimes ++ repeat 120 (n - length pollTimes).
Proof.
  rewrite <- seq_shift, map_map.
  rewrite (map_ext _ (fun k => nth k pollTimes 120) poll_time_S).
  apply map_nth_seq.
Qed.

(** A cycle with change outside the charging tier resets the streak. *)
Lemma changed_cycle_resets cfg g c g1 evs interval :
  check_states_try cfg g (c_fetch c) (c_now c) (c_interval c)
    = Ok (Proceed g1 evs interval true) ->
  charging_tier g1 = Ok false ->
  check_states cfg g (c_fetch c) (c_now c) (c_interval c)
    = Ok (reset_streak g1, evs, a_awake_poll_secs cfg).
Proof.
  intros Ht Hc. rewrite (check_states_proceed _ _ _ _ _ _ _ _ _ Ht).
  rewrite (check_states_tail_cases _ _ _ _ _ Hc). reflexivity.
Qed.

(** C5, as stated, fails: an unchanged idle cycle returns 2; the car then
    charges, a cycle with change that returns 15 and leaves the streak at
    1; the next unchanged cycle returns the second ladder value 5, not 2. *)
Lemma streak_survives_charging :
  check_states_seq sample_cfg g_parked
    [mk_call (FetchOk (resp_parked 200)) 200 2;
     mk_call (FetchOk (resp_charging 300)) 300 2;
     mk_call (FetchOk (resp_charged 400)) 400 15]
  = Ok [(Some false, 2); (Some true, 15); (Some false, 5)].
Proof. vm_compute. reflexivity. Qed.

(** C5 (amended): a run of consecutive cycles with [changed = false]
    outside the charging tier that begins with the streak at 0 returns the
    ladder values in order, then 120 once the ladder is used up; and a
    cycle with [changed = true] outside the charging tier returns
    [awakePollInterval] and resets the streak to 0, so that the unchanged
    run after it begins at the first ladder value. (A cycle in the charging
    tier does not touch the streak.) *)
Theorem ladder_between_resets cfg :
  (forall g cs vs g',
     noChangesPollCount (state_monitor g) = 0%nat ->
     unchanged_run cfg g cs vs g' ->
     vs = firstn (length cs) pollTimes ++ repeat 120 (length cs - length pollTimes)) /\
  (forall g c g1 evs interval,
     check_states_try cfg g (c_fetch c) (c_now c) (c_interval c)
       = Ok (Proceed g1 evs interval true) ->
     charging_tier g1 = Ok false ->
     check_states cfg g (c_fetch c) (c_now c) (c_interval c)
       = Ok (reset_streak g1, evs, a_awake_poll_secs cfg) /\
     noChangesPollCount (state_monitor (reset_streak g1)) = 0%nat).
Proof.
  split.
  - intros g cs vs g' H0 Hrun.
    destruct (unchanged_run_intervals _ _ _ _ _ Hrun) as [-> _].
    rewrite H0. apply ladder_values.
  - intros g c g1 evs interval Ht Hc. split; [| reflexivity].
    exact (changed_cycle_resets _ _ _ _ _ _ Ht Hc).
Qed.

(** Three timed-out cycles in a row, from a streak of 0. *)
Lemma three_timeouts :
  exists g3,
    unchanged_run sample_cfg g_parked
      [mk_call (FetchRaise ContinuePollingError) 200 2;
       mk_call (FetchRaise ContinuePollingError) 202 2;
       mk_call (FetchRaise ContinuePollingError) 207 5]
      [2; 5; 15] g3.
Proof.
  eexists.
  eapply run_cons;
    [ eexists _, _, _; split; reflexivity | reflexivity | split; reflexivity | ].
  eapply run_cons;
    [ eexists _, _, _; split; reflexivity | reflexivity | split; reflexivity | ].
  eapply run_cons;
    [ eexists _, _, _; split; reflexivity | reflexivity | split; reflexivity | ].
  apply run_nil.
Defined.

Lemma ladder_between_resets_witness :
  exists g3,
    unchanged_run sample_cfg g_parked
      [mk_call (FetchRaise ContinuePollingError) 200 2;
       mk_call (FetchRaise ContinuePollingError) 202 2;
       mk_call (FetchRaise ContinuePollingError) 207 5]
      [2; 5; 15] g3 /\
    [2; 5; 15] = firstn 3 pollTimes ++ repeat 120 (3 - length pollTimes).
Proof.
  destruct three_timeouts as [g3 Hrun]. exists g3. split; [exact Hrun |].
  exact (proj1 (ladder_between_resets sample_cfg) g_parked _ _ g3 eq_refl Hrun).
Defined.

(** ** The main loop *)

(** The intervals [check_states] can compute once it is past the fetch. *)
Lemma poll_time_in_ladder k : In (poll_time (S k)) pollTimes.
Proof.
  rewrite poll_time_S.
  destruct (Nat.lt_ge_cases k (length pollTimes)) as [Hlt | Hge].
  - apply nth_In. exact Hlt.
  - rewrite nth_overflow by exact Hge. simpl. tauto.
Qed.

Lemma check_states_value cfg g f now interval g' evs v :
  check_states cfg g f now interval = Ok (g', evs, v) ->
  f <> FetchRaise HTTPError ->
  v = 5 \/ v = 15 \/ v = a_awake_poll_secs cfg \/ In v pollTimes.
Proof.
  unfold check_states. intros H Hf. case_bind.
  destruct a as [g1 evs1 interval1 any_change | g1 v1].
  - destruct (charging_tier g1) as [charging |] eqn:Hc.
    + rewrite (check_states_tail_cases _ _ _ _ _ Hc) in H.
      cbn [mbind result_bind] in H.
      destruct charging; [destruct (fast_charger g1) |]; [| | destruct any_change];
        inv_ok H; auto using poll_time_in_ladder.
    + unfold check_states_tail in H. rewrite Hc in H. discriminate H.
  - destruct f as [r | e].
    + unfold check_states_try in E. case_bind. destruct a as [[? ?] ?].
      destruct (shift_in_gear _); discriminate E.
    + destruct e; try discriminate E. congruence.
Qed.

Lemma ladder_nonzero v : In v pollTimes -> v <> 0.
Proof.
  unfold pollTimes. simpl. intros H.
  repeat (destruct H as [<- | H]; [lia |]). destruct H.
Qed.

(** The main loop, after [check_states], either keeps the interval or sets
    it to [a_awake_poll_secs]; it touches neither store nor streak. *)
Lemma forced_refresh_keeps cfg inp g g' evs :
  forced_refresh cfg inp g = Ok (g', evs) ->
  state_monitor g' = state_monitor g /\
  (poll_interval g' = poll_interval g \/ poll_interval g' = a_awake_poll_secs cfg).
Proof.
  unfold forced_refresh. intros H.
  destruct (_ || _).
  - case_bind. destruct (in_wake inp); try discriminate H; inv_ok H; simpl; auto.
  - inv_ok H. auto.
Qed.

Lemma track_transitions_keeps cfg inp g g' :
  track_transitions cfg inp g = Ok g' ->
  state_monitor g' = state_monitor g /\
  (poll_interval g' = poll_interval g \/ poll_interval g' = a_awake_poll_secs cfg).
Proof.
  unfold track_transitions. intros H.
  destruct (py_eq (previous_car_state g) (PStr "asleep")
            && py_eq (v_state (vehicle (state_monitor g))) (PStr "online"));
    destruct (py_eq (v_state (vehicle (state_monitor g))) (PStr "asleep")
              && py_eq (previous_car_state g) (PStr "online"));
    destruct (py_eq (v_state (vehicle (state_monitor g))) (PStr "online"));
    cbn [mbind result_bind] in H; repeat case_bind;
    repeat match goal with
           | H' : Ok _ = Ok _ |- _ => injection H' as H'; subst
           end; simpl; auto.
Qed.

Lemma cycle_body_inv cfg g inp g1 evs :
  cycle_body cfg g inp = Ok (g1, evs) ->
  exists g0 evs0 v,
    check_states cfg (prepared g inp) (in_fetch inp) (t_classify inp) (poll_interval g)
      = Ok (g0, evs0, v) /\
    (poll_interval g1 = v \/ poll_interval g1 = a_awake_poll_secs cfg) /\
    same_schedule g0 g1.
Proof.
  unfold cycle_body. fold (prepared g inp). intros H.
  change (poll_interval (prepared g inp)) with (poll_interval g) in H.
  case_bind. destruct a as [[g0 evs0] v]. exists g0, evs0, v. split; [reflexivity |].
  case_bind. case_bind. destruct a0 as [g2 evs2].
  case_bind. inv_ok H.
  destruct (forced_refresh_keeps _ _ _ _ _ E1) as [Hm2 Hp2].
  destruct (track_transitions_keeps _ _ _ _ E2) as [Hm3 Hp3].
  simpl in Hm2, Hp2. unfold same_schedule. simpl.
  rewrite Hm3, Hm2. split; [| auto].
  destruct Hp3 as [-> | ->]; [| auto]. destruct Hp2 as [-> | ->]; auto.
Qed.



Lemma main_cycle_inv cfg g inp g' evs' :
  main_cycle cfg g inp = Ok (g', evs') ->
  exists g1 evs,
    cycle_body cfg g inp = Ok (g1, evs) /\ 0 <= sleep_arg g1 inp /\
    g' = set_poll_interval g1 (sleep_arg g1 inp) /\
    evs' = evs ++ [Sleep (sleep_arg g1 inp)].
Proof.
  unfold main_cycle. intros H.
  destruct (cycle_body cfg g inp) as [[g1 evs] |] eqn:Hb; [| discriminate H].
  cbn [mbind result_bind] in H. unfold time_sleep in H.
  destruct (Z.ltb_spec (sleep_arg g1 inp) 0) as [Hn | Hn]; [discriminate H |].
  cbn [mbind result_bind] in H. inv_ok H. exists g1, evs. auto.
Qed.




(** C9, as stated, fails: the car is asleep and unreachable, the ladder
    gives 120, and the forced wake-up is due at the very second the clamp
    is evaluated; the pass calls [time.sleep(0)]. *)
Lemma sleeps_zero_at_the_deadline :
  returned (main_cycle sample_cfg (g_asleep 1000) (pass_unreachable 1000))
  = Ok [WriteVehicleState (PStr "5YJ") (PStr "car") 1000000000000 (PStr "asleep");
        Sleep 0].
Proof. vm_compute. reflexivity. Qed.

(** C9 (amended): with a nonzero [awakePollInterval], and unless the fetch
    fails with an API error, the interval a pass computes is never 0: it is
    5, 15, [awakePollInterval] or a ladder entry. The forced-wake clamp
    that follows substitutes nothing: the value handed to [time.sleep] is
    0 exactly when the clamp applies and the deadline is the current
    time. *)
Theorem zero_sleep_only_at_deadline cfg g inp g1 evs :
  cycle_body cfg g inp = Ok (g1, evs) ->
  a_awake_poll_secs cfg <> 0 ->
  in_fetch inp <> FetchRaise HTTPError ->
  (poll_interval g1 = 5 \/ poll_interval g1 = 15 \/
   poll_interval g1 = a_awake_poll_secs cfg \/ In (poll_interval g1) pollTimes) /\
  poll_interval g1 <> 0 /\
  (sleep_arg g1 inp = 0 <->
   next_wakeup g1 < t_clamp_test inp + poll_interval g1 /\
   next_wakeup g1 = t_clamp_sub inp).
Proof.
  intros Hb Ha Hf.
  destruct (cycle_body_inv _ _ _ _ _ Hb) as (g0 & evs0 & v & Hc & Hp & _).
  pose proof (check_states_value _ _ _ _ _ _ _ _ Hc Hf) as Hv.
  assert (Hin : poll_interval g1 = 5 \/ poll_interval g1 = 15 \/
                poll_interval g1 = a_awake_poll_secs cfg \/
                In (poll_interval g1) pollTimes).
  { destruct Hp as [-> | ->]; [exact Hv | auto]. }
  assert (Hnz : poll_interval g1 <> 0).
  { destruct Hin as [-> | [-> | [-> | Hin]]]; try lia; auto using ladder_nonzero. }
  split; [exact Hin |]. split; [exact Hnz |].
  unfold sleep_arg.
  destruct (Z.ltb_spec (next_wakeup g1) (t_clamp_test inp + poll_interval g1)); lia.
Qed.

Lemma zero_sleep_only_at_deadline_witness :
  match cycle_body sample_cfg (g_asleep 1000) (pass_unreachable 1000) with
  | Ok (g1, evs) =>
      poll_interval g1 <> 0 /\
      (sleep_arg g1 (pass_unreachable 1000) = 0 <->
       next_wakeup g1 < 1000 + poll_interval g1 /\ next_wakeup g1 = 1000)
  | Raise _ => False
  end.
Proof.
  destruct (cycle_body sample_cfg (g_asleep 1000) (pass_unreachable 1000))
    as [[g1 evs] | e] eqn:E; [| vm_compute in E; discriminate E].
  destruct (zero_sleep_only_at_deadline sample_cfg (g_asleep 1000) (pass_unreachable 1000)
              g1 evs E) as (_ & Hnz & Hz).
  - simpl. lia.
  - simpl. discriminate.
  - split; [exact Hnz | exact Hz].
Defined.

(** What the main loop does between two calls of [check_states] is a
    [same_schedule] step, as the runs of unchanged cycles allow. *)
Lemma between_calls cfg g inp g1 evs inp' :
  cycle_body cfg g inp = Ok (g1, evs) ->
  exists g0 evs0 v,
    check_states cfg (prepared g inp) (in_fetch inp) (t_classify inp) (poll_interval g)
      = Ok (g0, evs0, v) /\
    same_schedule g0 (prepared (set_poll_interval g1 (sleep_arg g1 inp)) inp').
Proof.
  intros Hb. destruct (cycle_body_inv _ _ _ _ _ Hb) as (g0 & evs0 & v & Hc & _ & Hs).
  exists g0, evs0, v. split; [exact Hc |]. exact Hs.
Qed.

(** * Further properties of the code *)

(** ** ongoing_activity_status *)

Lemma py_eq_refl v : py_eq v v = true.
Proof.
  destruct v as [| b | n | s]; simpl;
    [reflexivity | apply Z.eqb_refl | apply Z.eqb_refl | apply String.eqb_refl].
Qed.

(** The classifier begins with the test [moving]. *)
Lemma ongoing_activity_status_moving ov now :
  moving ov = Ok true -> ongoing_activity_status ov now = Ok "driving"%string.
Proof.
  unfold moving, ongoing_activity_status. cbv zeta. intros H.
  destruct (shift_in_gear _ || py_eq _ _); [reflexivity |].
  rewrite H. reflexivity.
Qed.

(** Neutral gear, or a stored speed above 0, is enough for driving: the
    charging, climate and screen readings are not consulted. *)
Theorem neutral_or_moving_is_driving ov now :
  py_eq (py_get (ov_drive ov) "shift_state" (PStr "")) (PStr "N") = true \/
  (exists s, py_num (py_or (py_get (ov_drive ov) "speed" (PInt 0)) (PInt 0)) = Some s /\
             0 < s) ->
  ongoing_activity_status ov now = Ok "driving"%string.
Proof.
  intros H. apply ongoing_activity_status_moving. unfold moving. cbv zeta.
  destruct H as [H | (s & Hs & Hp)].
  - rewrite H, orb_true_r. reflexivity.
  - destruct (shift_in_gear _ || py_eq _ _); [reflexivity |].
    unfold py_gt. rewrite Hs. destruct (Z.ltb_spec 0 s); [reflexivity | lia].
Qed.

Lemma neutral_or_moving_is_driving_witness :
  ongoing_activity_status ov_neutral 0 = Ok "driving"%string.
Proof.
  apply (neutral_or_moving_is_driving ov_neutral 0). left. reflexivity.
Defined.

(** With the car at rest, a charger voltage above 10 together with a
    charger current above 0 classifies as charging whatever the charging
    state says: the tail of a charge is not reported as idle. *)
Theorem charging_tail_latch ov now cs v c :
  moving ov = Ok false ->
  py_get (ov_charge ov) "charging_state" (PStr "") = PStr cs ->
  py_num (py_get (ov_charge ov) "charger_voltage" (PInt 0)) = Some v -> 10 < v ->
  py_num (py_get (ov_charge ov) "charger_actual_current" (PInt 0)) = Some c -> 0 < c ->
  ongoing_activity_status ov now = Ok "charging"%string.
Proof.
  unfold moving, ongoing_activity_status. cbv zeta. intros Hm Hcs Hv Hv' Hc Hc'.
  destruct (shift_in_gear _ || py_eq _ _); [discriminate Hm |].
  rewrite Hm, Hcs. cbn [mbind result_bind py_lower].
  destruct (_ || _); [reflexivity |].
  unfold py_gt. rewrite Hv, Hc. cbn [mbind result_bind].
  destruct (Z.ltb_spec 10 v); [| lia]. destruct (Z.ltb_spec 0 c); [| lia].
  reflexivity.
Qed.

Lemma charging_tail_latch_witness :
  ongoing_activity_status ov_tail 0 = Ok "charging"%string.
Proof.
  apply (charging_tail_latch ov_tail 0 "Complete" 12 1); try reflexivity; lia.
Defined.

(** With the car at rest, a stored charging state that is not a string (a
    null read, a number) makes the classifier raise [AttributeError]. *)
Theorem classifier_needs_string_charging_state ov now :
  moving ov = Ok false ->
  (forall s, py_get (ov_charge ov) "charging_state" (PStr "") <> PStr s) ->
  ongoing_activity_status ov now = Raise AttributeError.
Proof.
  unfold moving, ongoing_activity_status. cbv zeta. intros Hm Hcs.
  destruct (shift_in_gear _ || py_eq _ _); [discriminate Hm |].
  rewrite Hm. cbn [mbind result_bind].
  destruct (py_get (ov_charge ov) "charging_state" (PStr "")) as [| b | n | s];
    try reflexivity.
  destruct (Hcs s eq_refl).
Qed.

Lemma classifier_needs_string_charging_state_witness :
  ongoing_activity_status ov_null_charging 0 = Raise AttributeError.
Proof.
  apply (classifier_needs_string_charging_state ov_null_charging 0).
  - reflexivity.
  - intros s. vm_compute. discriminate.
Defined.



(** The classifier says idle only when no activity signal is stored: the
    car is at rest, the charging state is neither "charging" nor
    "starting", the climate is off and the display code is 0 or 5 (or
    missing). *)
Theorem idle_means_no_activity ov now :
  ongoing_activity_status ov now = Ok "idle"%string ->
  moving ov = Ok false /\
  (exists cs, py_get (ov_charge ov) "charging_state" (PStr "") = PStr cs /\
              lower cs <> "charging"%string /\ lower cs <> "starting"%string) /\
  py_truthy (py_get (ov_climate ov) "is_climate_on" (PBool false)) = false /\
  (py_eq (py_get (ov_vehicle ov) "center_display_state" (PInt 0)) (PInt 0) = true \/
   py_eq (py_get (ov_vehicle ov) "center_display_state" (PInt 0)) (PInt 5) = true).
Proof.
  unfold moving, ongoing_activity_status. cbv zeta. intros H.
  destruct (shift_in_gear _ || py_eq _ _); [discriminate H |].
  destruct (py_gt (py_or (py_get (ov_drive ov) "speed" (PInt 0)) (PInt 0)) 0)
    as [[|] |]; cbn [mbind result_bind] in H; try discriminate H.
  split; [reflexivity |].
  destruct (py_get (ov_charge ov) "charging_state" (PStr "")) as [| b | n | cs];
    try discriminate H.
  cbn [mbind result_bind py_lower] in H.
  destruct (String.eqb_spec (lower cs) "charging"); [discriminate H |].
  destruct (String.eqb_spec (lower cs) "starting"); [discriminate H |].
  cbn [orb] in H.
  split; [exists cs; auto |].
  repeat match type of H with
  | mbind _ ?x = _ => destruct x as [[|] |]; cbn [mbind result_bind] in H;
                      try discriminate H
  end;
  (destruct (py_truthy (py_get (ov_climate ov) "is_climate_on" (PBool false)));
   [discriminate H |]; split; [reflexivity |];
   destruct (py_eq (py_get (ov_vehicle ov) "center_display_state" (PInt 0)) (PInt 0));
   [auto |];
   destruct (py_eq (py_get (ov_vehicle ov) "center_display_state" (PInt 0)) (PInt 5));
   [auto |]; cbn [orb negb] in H;
   repeat match type of H with
          | (if ?c then _ else _) = _ => destruct c
          end; discriminate H).
Qed.

Lemma idle_means_no_activity_witness :
  moving ov_parked = Ok false /\
  py_truthy (py_get (ov_climate ov_parked) "is_climate_on" (PBool false)) = false.
Proof.
  destruct (idle_means_no_activity ov_parked 0 eq_refl) as (Hm & _ & Hc & _).
  split; [exact Hm | exact Hc].
Defined.



(** ** The element loop of request_state_group *)

Lemma elevation_step_old cfg vin name ts st :
  ls_old (elevation_step cfg vin name ts st) = ls_old st /\
  ls_fields (elevation_step cfg vin name ts st) = ls_fields st.
Proof.
  unfold elevation_step.
  destruct (ls_lat st), (ls_long st), (a_resolve_elevation cfg); auto.
Qed.

Lemma elevation_step_events cfg vin name ts st :
  ls_events (elevation_step cfg vin name ts st) = ls_events st \/
  a_resolve_elevation cfg = true /\
  exists lat long,
    ls_events (elevation_step cfg vin name ts st)
    = ls_events st ++ [StartElevator lat long vin name ts].
Proof.
  unfold elevation_step.
  destruct (ls_lat st), (ls_long st), (a_resolve_elevation cfg); simpl; eauto.
Qed.

(** One pass of the element loop: an item passed over leaves store and
    fields alone; any other item has its settled value stored under its
    own name, and written when it is to be reported. *)
Lemma process_element_cases cfg vin name ts k v st st' :
  process_element cfg vin name ts (k, v) st = Ok st' ->
  (passed_over k v = true /\ ls_old st' = ls_old st /\ ls_fields st' = ls_fields st) \/
  (passed_over k v = false /\
   exists w, settled k (py_get (ls_old st) k (PStr "")) v = Ok w /\
             ls_old st' = <[k := w]> (ls_old st) /\
             ls_fields st' = if reported k w then <[k := w]> (ls_fields st)
                             else ls_fields st).
Proof.
  unfold process_element, passed_over, settled. cbv zeta. intros H.
  destruct (mem k unscraped).
  { inv_ok H. left. destruct (elevation_step_old cfg vin name ts st). auto. }
  destruct (String.eqb k "vehicle_name" && negb (py_truthy v)).
  { inv_ok H. left. auto. }
  right. split; [reflexivity |].
  match type of H with
  | context [match ?x with PNone => _ | _ => _ end] => set (nv := x) in *
  end.
  assert (Hfin : forall w flds,
            Ok (elevation_step cfg vin name ts
                  {| ls_old := <[k := w]> (ls_old st); ls_fields := flds;
                     ls_lat := if String.eqb k "native_latitude" then v else ls_lat st;
                     ls_long := if String.eqb k "native_longitude" then v else ls_long st;
                     ls_events := ls_events st |}) = Ok st' ->
            ls_old st' = <[k := w]> (ls_old st) /\ ls_fields st' = flds).
  { intros w flds Hw. inv_ok Hw. apply elevation_step_old. }
  cbn [find_check a_validity_checks] in *.
  destruct (mem k a_ignore) eqn:Hig; cbn [negb] in *;
    destruct nv eqn:Hnv; cbn [mbind result_bind] in *;
    try (destruct (Hfin _ _ H) as [-> ->]; eexists; split; [reflexivity |];
         split; [reflexivity | unfold reported; rewrite ?Hig; reflexivity]).
  all: destruct (String.eqb k "charger_voltage"); cbn [mbind result_bind vc_eval vc_set] in *.
  all: try (destruct (py_lt _ 0) as [[|] |] eqn:Hv; cbn [mbind result_bind] in *;
            try discriminate H).
  all: destruct (Hfin _ _ H) as [-> ->]; eexists; (split; [reflexivity |]);
    (split; [reflexivity | unfold reported; rewrite ?Hig; reflexivity]).
Qed.

Lemma process_element_other cfg vin name ts k v st st' k' :
  process_element cfg vin name ts (k, v) st = Ok st' ->
  k' <> k ->
  ls_old st' !! k' = ls_old st !! k' /\ ls_fields st' !! k' = ls_fields st !! k'.
Proof.
  intros H Hne.
  destruct (process_element_cases _ _ _ _ _ _ _ _ H)
    as [(_ & -> & ->) | (_ & w & _ & -> & ->)]; [auto |].
  rewrite lookup_insert_ne by congruence.
  destruct (reported k w); [rewrite lookup_insert_ne by congruence |]; auto.
Qed.

Lemma process_elements_other cfg vin name ts items : forall st st' k',
  process_elements cfg vin name ts items st = Ok st' ->
  k' ∉ items.*1 ->
  ls_old st' !! k' = ls_old st !! k' /\ ls_fields st' !! k' = ls_fields st !! k'.
Proof.
  induction items as [| [k v] rest IH]; intros st st' k' H Hk; simpl in H.
  - inv_ok H. auto.
  - case_bind. rewrite fmap_cons in Hk. apply not_elem_of_cons in Hk as [Hne Hk].
    cbn [fst] in Hne.
    destruct (IH _ _ _ H Hk) as [-> ->].
    exact (process_element_other _ _ _ _ _ _ _ _ _ E Hne).
Qed.

(** After the element loop every item of the result has been handled on
    its own: what is stored under a name depends on that name's old and
    new value only. *)
Lemma process_elements_item cfg vin name ts items : forall st st' k v,
  NoDup items.*1 ->
  (k, v) ∈ items ->
  process_elements cfg vin name ts items st = Ok st' ->
  if passed_over k v
  then ls_old st' !! k = ls_old st !! k /\ ls_fields st' !! k = ls_fields st !! k
  else exists w, settled k (py_get (ls_old st) k (PStr "")) v = Ok w /\
                 ls_old st' !! k = Some w /\
                 ls_fields st' !! k = if reported k w then Some w
                                      else ls_fields st !! k.
Proof.
  induction items as [| [k0 v0] rest IH]; intros st st' k v Hnd Hin H; simpl in H.
  - apply elem_of_nil in Hin. destruct Hin.
  - case_bind. rewrite fmap_cons in Hnd. apply NoDup_cons in Hnd as [Hk0 Hnd].
    cbn [fst] in Hk0.
    apply elem_of_cons in Hin as [Heq | Hin].
    + injection Heq as -> ->.
      destruct (process_elements_other _ _ _ _ _ _ _ _ H Hk0) as [-> ->].
      destruct (process_element_cases _ _ _ _ _ _ _ _ E)
        as [(-> & -> & ->) | (-> & w & Hw & -> & ->)]; [auto |].
      exists w. split; [exact Hw |]. rewrite lookup_insert_eq. split; [reflexivity |].
      destruct (reported k0 w); [rewrite lookup_insert_eq |]; reflexivity.
    + assert (Hne : k <> k0).
      { intros ->. apply Hk0. apply (list_elem_of_fmap_2 fst) in Hin. exact Hin. }
      destruct (process_element_other _ _ _ _ _ _ _ _ _ E Hne) as [Ho Hf].
      specialize (IH _ _ _ _ Hnd Hin H).
      unfold py_get in *. rewrite Ho, Hf in IH. exact IH.
Qed.

(** With empty fields at the start, a name is in the fields at the end
    only if the result holds it, the loop did not pass it over, and its
    settled value, which is also the stored one, is to be reported. *)
Lemma process_elements_fields cfg vin name ts items st st' k w :
  NoDup items.*1 ->
  ls_fields st = ∅ ->
  process_elements cfg vin name ts items st = Ok st' ->
  ls_fields st' !! k = Some w ->
  exists v, (k, v) ∈ items /\ passed_over k v = false /\
            settled k (py_get (ls_old st) k (PStr "")) v = Ok w /\
            reported k w = true /\ ls_old st' !! k = Some w.
Proof.
  intros Hnd He H Hl.
  destruct (decide (k ∈ items.*1)) as [Hin | Hout].
  - apply list_elem_of_fmap in Hin as ([k0 v] & -> & Hin). cbn [fst] in *.
    exists v. split; [exact Hin |].
    pose proof (process_elements_item _ _ _ _ _ _ _ _ _ Hnd Hin H) as Hi.
    rewrite He, lookup_empty in Hi.
    destruct (passed_over k0 v).
    + destruct Hi as [_ Hf]. congruence.
    + destruct Hi as (w' & Hw & Ho & Hf). destruct (reported k0 w') eqn:Hr.
      * assert (w' = w) as -> by congruence. auto.
      * congruence.
  - destruct (process_elements_other _ _ _ _ _ _ _ _ H Hout) as [_ Hf].
    rewrite He, lookup_empty in Hf. congruence.
Qed.

Lemma reported_clean k w : reported k w = true -> w <> PNone /\ mem k a_ignore = false.
Proof.
  unfold reported. destruct w; try discriminate;
    intros H; apply negb_true_iff in H; split; congruence.
Qed.

(** The calls recorded during the element loop: elevation threads only. *)
Lemma process_element_events cfg vin name ts (P : event -> Prop) item st st' :
  (a_resolve_elevation cfg = true ->
   forall lat long, P (StartElevator lat long vin name ts)) ->
  process_element cfg vin name ts item st = Ok st' ->
  Forall P (ls_events st) -> Forall P (ls_events st').
Proof.
  destruct item as [k v]. unfold process_element. cbv zeta. intros HP H Hb.
  assert (He : forall st2, ls_events st2 = ls_events st ->
                 Forall P (ls_events (elevation_step cfg vin name ts st2))).
  { intros st2 Hst.
    destruct (elevation_step_events cfg vin name ts st2) as [-> | (Hr & lat & long & ->)];
      rewrite Hst; [exact Hb |].
    apply Forall_app. split; [exact Hb |]. constructor; [auto | constructor]. }
  destruct (mem k unscraped); [inv_ok H; apply He; reflexivity |].
  destruct (_ && _); [inv_ok H; exact Hb |].
  case_bind. destruct a as [w flds]. inv_ok H. apply He. reflexivity.
Qed.

Lemma process_elements_events cfg vin name ts (P : event -> Prop) items :
  (a_resolve_elevation cfg = true ->
   forall lat long, P (StartElevator lat long vin name ts)) ->
  forall st st',
  process_elements cfg vin name ts items st = Ok st' ->
  Forall P (ls_events st) -> Forall P (ls_events st').
Proof.
  intros HP. induction items as [| item rest IH]; intros st st' H Hb; simpl in H.
  - inv_ok H. exact Hb.
  - case_bind. eapply IH; [exact H |].
    eapply process_element_events; eassumption.
Qed.

Lemma sorted_items_elem (d : dict) k v : (k, v) ∈ sorted_items d <-> d !! k = Some v.
Proof.
  unfold sorted_items. rewrite merge_sort_Permutation. apply elem_of_map_to_list.
Qed.

Lemma sorted_items_NoDup (d : dict) : NoDup (sorted_items d).*1.
Proof.
  unfold sorted_items. rewrite merge_sort_Permutation. apply NoDup_fst_map_to_list.
Qed.

Lemma sorted_items_keys (d : dict) k : k ∈ (sorted_items d).*1 <-> is_Some (d !! k).
Proof.
  rewrite list_elem_of_fmap. split.
  - intros ([k0 v] & -> & Hin). apply sorted_items_elem in Hin. eauto.
  - intros [v Hv]. exists (k, v). split; [reflexivity |]. apply sorted_items_elem, Hv.
Qed.

(** ** One category of request_state_group *)

Lemma ov_get_set_eq ov c d : ov_get (ov_set ov c d) c = d.
Proof. destruct c; reflexivity. Qed.

Lemma ov_get_set_ne ov c d c' : c' <> c -> ov_get (ov_set ov c d) c' = ov_get ov c'.
Proof. destruct c, c'; intros H; try reflexivity; destruct (H eq_refl). Qed.

(** What a category that is processed (no [break]) has gone through. *)
Lemma process_request_inr cfg r c gs gs' :
  process_request cfg r c gs = Ok (inr gs') ->
  let g := gs_globals gs in
  let old := ov_get (old_values (state_monitor g)) c in
  exists d t tz st,
    r_group r c = Some d /\ d !! "timestamp"%string = Some t /\ py_int t = Ok tz /\
    py_eq (py_get old "timestamp" (PStr "")) t = false /\
    process_elements cfg (a_vin g) (a_display_name g) t (sorted_items d)
      {| ls_old := <["timestamp"%string := t]> old; ls_fields := ∅;
         ls_lat := gs_lat gs; ls_long := gs_long gs; ls_events := gs_events gs |}
    = Ok st /\
    old_values (state_monitor (gs_globals gs'))
    = ov_set (old_values (state_monitor g)) c (ls_old st) /\
    gs_events gs' =
      (if negb (a_dry_run cfg) && (0 <? Z.of_nat (size (ls_fields st)))
       then ls_events st ++
            [WritePoints {| measurement := category_name c; tag_vin := a_vin g;
                            tag_display_name := a_display_name g;
                            jb_fields := ls_fields st; jb_time := tz * 1000000 |}]
       else ls_events st).
Proof.
  unfold process_request. cbv zeta. intros H.
  destruct (r_group r c) as [d |]; [| discriminate H]. cbn [mbind result_bind] in H.
  destruct (d !! "timestamp"%string) as [t |] eqn:Hts; [| discriminate H].
  cbn [mbind result_bind] in H.
  destruct (py_eq _ t) eqn:Hs; [discriminate H |].
  destruct (py_int t) as [tz |] eqn:Ht; [| discriminate H].
  cbn [mbind result_bind] in H. case_bind. inv_ok H.
  exists d, t, tz, a. repeat split; auto.
Qed.

Lemma process_request_inl cfg r c gs gs' :
  process_request cfg r c gs = Ok (inl gs') ->
  old_values (state_monitor (gs_globals gs')) = old_values (state_monitor (gs_globals gs)) /\
  gs_events gs' = gs_events gs.
Proof.
  unfold process_request. cbv zeta. intros H.
  destruct (r_group r c) as [d |]; [| discriminate H]. cbn [mbind result_bind] in H.
  destruct (d !! "timestamp"%string) as [t |]; [| discriminate H].
  cbn [mbind result_bind] in H.
  destruct (py_eq _ t) eqn:Hs.
  - inv_ok H. split; reflexivity.
  - destruct (py_int t) as [tz |]; [| discriminate H].
    cbn [mbind result_bind] in H. case_bind.
Qed.

Lemma passed_over_timestamp v : passed_over "timestamp" v = true.
Proof. reflexivity. Qed.

(** The store of a processed category, name by name. *)
Lemma process_request_stored cfg r c gs gs' d :
  process_request cfg r c gs = Ok (inr gs') ->
  r_group r c = Some d ->
  let old := ov_get (old_values (state_monitor (gs_globals gs))) c in
  let new := ov_get (old_values (state_monitor (gs_globals gs'))) c in
  new !! "timestamp"%string = d !! "timestamp"%string /\
  (forall k, k <> "timestamp"%string -> d !! k = None -> new !! k = old !! k) /\
  (forall k v, k <> "timestamp"%string -> d !! k = Some v ->
     if passed_over k v then new !! k = old !! k
     else exists w, settled k (py_get old k (PStr "")) v = Ok w /\ new !! k = Some w).
Proof.
  intros H Hd. cbv zeta.
  destruct (process_request_inr _ _ _ _ _ H)
    as (d' & t & tz & st & Hd' & Ht & _ & _ & He & -> & _).
  rewrite Hd in Hd'. injection Hd' as <-. rewrite ov_get_set_eq.
  pose proof (sorted_items_NoDup d) as Hnd.
  split; [| split].
  - assert (Hin : ("timestamp"%string, t) ∈ sorted_items d) by (apply sorted_items_elem, Ht).
    pose proof (process_elements_item _ _ _ _ _ _ _ _ _ Hnd Hin He) as Hi.
    rewrite passed_over_timestamp in Hi. destruct Hi as [-> _].
    cbn [ls_old]. rewrite lookup_insert_eq. symmetry. exact Ht.
  - intros k Hk Hnone.
    assert (Hout : k ∉ (sorted_items d).*1).
    { rewrite sorted_items_keys, Hnone. intros [? ?]. discriminate. }
    destruct (process_elements_other _ _ _ _ _ _ _ _ He Hout) as [-> _].
    cbn [ls_old]. rewrite lookup_insert_ne by congruence. reflexivity.
  - intros k v Hk Hv.
    assert (Hin : (k, v) ∈ sorted_items d) by (apply sorted_items_elem, Hv).
    pose proof (process_elements_item _ _ _ _ _ _ _ _ _ Hnd Hin He) as Hi.
    cbn [ls_old ls_fields] in Hi. unfold py_get in *.
    rewrite lookup_insert_ne in Hi by congruence.
    destruct (passed_over k v).
    + destruct Hi as [-> _]. reflexivity.
    + destruct Hi as (w & Hw & Ho & _). eauto.
Qed.

Lemma settled_speed_none old_value : settled "speed" old_value PNone = Ok (PInt 0).
Proof. reflexivity. Qed.

Lemma settled_shift_none old_value : settled "shift_state" old_value PNone = Ok old_value.
Proof.
  unfold settled. cbn [String.eqb Ascii.eqb Bool.eqb andb mem existsb orb].
  destruct old_value; reflexivity.
Qed.

Lemma settled_none k old_value :
  k <> "speed"%string -> k <> "shift_state"%string ->
  settled k old_value PNone = Ok PNone.
Proof.
  intros Hs Hg. unfold settled.
  apply String.eqb_neq in Hs, Hg. rewrite Hs. cbn [andb mem existsb]. rewrite Hg.
  cbn [orb]. destruct (negb (py_eq PNone old_value)); reflexivity.
Qed.

Lemma settled_negative_voltage old_value n :
  n < 0 -> settled "charger_voltage" old_value (PInt n) = Ok (PInt 0).
Proof.
  intros Hn. unfold settled.
  cbn [String.eqb Ascii.eqb Bool.eqb andb py_eq py_num].
  assert (Hnv : (if negb match py_num old_value with
                          | Some y => n =? y
                          | None => false
                          end then PInt n else PInt n) = PInt n)
    by (destruct (negb _); reflexivity).
  rewrite Hnv. cbn. destruct (Z.ltb_spec n 0); [reflexivity | lia].
Qed.

(** Missing reads in a processed category: a null speed is stored as 0, a
    null gear-shift state keeps what was stored (the empty string when
    nothing was), and a null read of any other field the loop does not
    pass over replaces the stored value by [None]. *)
Theorem missing_reads_substituted cfg r c gs gs' d :
  process_request cfg r c gs = Ok (inr gs') ->
  r_group r c = Some d ->
  let old := ov_get (old_values (state_monitor (gs_globals gs))) c in
  let new := ov_get (old_values (state_monitor (gs_globals gs'))) c in
  (d !! "speed"%string = Some PNone -> new !! "speed"%string = Some (PInt 0)) /\
  (d !! "shift_state"%string = Some PNone ->
   new !! "shift_state"%string = Some (py_get old "shift_state" (PStr ""))) /\
  (forall k, d !! k = Some PNone -> passed_over k PNone = false ->
             k <> "speed"%string -> k <> "shift_state"%string ->
             new !! k = Some PNone).
Proof.
  intros H Hd. cbv zeta.
  destruct (process_request_stored _ _ _ _ _ _ H Hd) as (_ & _ & Hst).
  split; [| split].
  - intros Hv. specialize (Hst "speed"%string PNone ltac:(discriminate) Hv).
    cbn [passed_over mem existsb unscraped String.eqb Ascii.eqb Bool.eqb orb andb] in Hst.
    destruct Hst as (w & Hw & ->). rewrite settled_speed_none in Hw.
    congruence.
  - intros Hv. specialize (Hst "shift_state"%string PNone ltac:(discriminate) Hv).
    cbn [passed_over mem existsb unscraped String.eqb Ascii.eqb Bool.eqb orb andb] in Hst.
    destruct Hst as (w & Hw & ->). rewrite settled_shift_none in Hw. congruence.
  - intros k Hv Hp Hs Hg.
    assert (Hk : k <> "timestamp"%string).
    { intros ->. rewrite passed_over_timestamp in Hp. discriminate. }
    specialize (Hst k PNone Hk Hv). rewrite Hp in Hst.
    destruct Hst as (w & Hw & ->). rewrite settled_none in Hw by assumption.
    congruence.
Qed.

Lemma missing_reads_substituted_witness :
  match process_request sample_cfg resp_glitch drive_state (gs_start g_parked) with
  | Ok (inr gs') =>
      ov_drive (old_values (state_monitor (gs_globals gs'))) !! "speed"%string
      = Some (PInt 0) /\
      ov_drive (old_values (state_monitor (gs_globals gs'))) !! "shift_state"%string
      = Some (PStr "P")
  | _ => False
  end.
Proof.
  destruct (process_request sample_cfg resp_glitch drive_state (gs_start g_parked))
    as [[gs' | gs'] | e] eqn:E; try (vm_compute in E; discriminate E).
  destruct (missing_reads_substituted sample_cfg resp_glitch drive_state
              (gs_start g_parked) gs' _ E eq_refl) as (Hs & Hg & _).
  split; [apply Hs; reflexivity | apply Hg; reflexivity].
Defined.

(** The validity rule in a processed category: a negative charger voltage
    is stored as 0, and outside dry-run mode the point written for the
    category carries 0 for it. *)
Theorem validity_rule_applied cfg r c gs gs' d n :
  process_request cfg r c gs = Ok (inr gs') ->
  r_group r c = Some d ->
  d !! "charger_voltage"%string = Some (PInt n) -> n < 0 ->
  ov_get (old_values (state_monitor (gs_globals gs'))) c !! "charger_voltage"%string
  = Some (PInt 0) /\
  (a_dry_run cfg = false ->
   exists b, last (gs_events gs') = Some (WritePoints b) /\
             measurement b = category_name c /\
             jb_fields b !! "charger_voltage"%string = Some (PInt 0)).
Proof.
  intros H Hd Hv Hn.
  destruct (process_request_inr _ _ _ _ _ H)
    as (d' & t & tz & st & Hd' & Ht & _ & _ & He & -> & ->).
  rewrite Hd in Hd'. injection Hd' as <-. rewrite ov_get_set_eq.
  assert (Hin : ("charger_voltage"%string, PInt n) ∈ sorted_items d)
    by (apply sorted_items_elem, Hv).
  pose proof (process_elements_item _ _ _ _ _ _ _ _ _ (sorted_items_NoDup d) Hin He) as Hi.
  cbn [passed_over mem existsb unscraped String.eqb Ascii.eqb Bool.eqb orb andb] in Hi.
  destruct Hi as (w & Hw & Ho & Hf).
  rewrite settled_negative_voltage in Hw by exact Hn. injection Hw as <-.
  split; [exact Ho |].
  intros Hdry. rewrite Hdry. cbn [negb andb].
  cbn in Hf.
  destruct (Z.ltb_spec 0 (Z.of_nat (size (ls_fields st)))) as [_ | Hsz].
  - eexists. rewrite last_snoc. split; [reflexivity |]. split; [reflexivity | exact Hf].
  - exfalso. assert (Hz : size (ls_fields st) = 0%nat) by lia.
    apply map_size_empty_iff in Hz. rewrite Hz, lookup_empty in Hf. discriminate.
Qed.

Lemma validity_rule_applied_witness :
  match process_request sample_cfg resp_glitch charge_state (gs_start g_parked) with
  | Ok (inr gs') =>
      ov_charge (old_values (state_monitor (gs_globals gs'))) !! "charger_voltage"%string
      = Some (PInt 0) /\
      exists b, last (gs_events gs') = Some (WritePoints b) /\
                measurement b = "charge_state"%string /\
                jb_fields b !! "charger_voltage"%string = Some (PInt 0)
  | _ => False
  end.
Proof.
  destruct (process_request sample_cfg resp_glitch charge_state (gs_start g_parked))
    as [[gs' | gs'] | e] eqn:E; try (vm_compute in E; discriminate E).
  destruct (validity_rule_applied sample_cfg resp_glitch charge_state
              (gs_start g_parked) gs' _ (-5) E eq_refl eq_refl ltac:(lia)) as (Hs & Hp).
  split; [exact Hs | exact (Hp eq_refl)].
Defined.

(** What processing a category leaves alone: the other categories, every
    stored name the response does not bring, and every name the loop
    passes over (the tuple of unscraped elements, an empty vehicle name);
    the stored timestamp becomes that of the response. *)
Theorem untouched_values_kept cfg r c gs gs' d :
  process_request cfg r c gs = Ok (inr gs') ->
  r_group r c = Some d ->
  let ov := old_values (state_monitor (gs_globals gs)) in
  let ov' := old_values (state_monitor (gs_globals gs')) in
  (forall c', c' <> c -> ov_get ov' c' = ov_get ov c') /\
  ov_get ov' c !! "timestamp"%string = d !! "timestamp"%string /\
  (forall k, k <> "timestamp"%string -> d !! k = None ->
             ov_get ov' c !! k = ov_get ov c !! k) /\
  (forall k v, k <> "timestamp"%string -> d !! k = Some v -> passed_over k v = true ->
               ov_get ov' c !! k = ov_get ov c !! k).
Proof.
  intros H Hd. cbv zeta.
  destruct (process_request_stored _ _ _ _ _ _ H Hd) as (Hts & Hab & Hst).
  split; [| split; [exact Hts | split; [exact Hab |]]].
  - intros c' Hne.
    destruct (process_request_inr _ _ _ _ _ H) as (_ & _ & _ & st & _ & _ & _ & _ & _ & -> & _).
    apply ov_get_set_ne. exact Hne.
  - intros k v Hk Hv Hp. specialize (Hst k v Hk Hv). rewrite Hp in Hst. exact Hst.
Qed.

Lemma untouched_values_kept_witness :
  match process_request sample_cfg resp_glitch drive_state (gs_start g_parked) with
  | Ok (inr gs') =>
      ov_charge (old_values (state_monitor (gs_globals gs'))) = ov_charge ov_parked /\
      ov_drive (old_values (state_monitor (gs_globals gs'))) !! "gps_as_of"%string = None
  | _ => False
  end.
Proof.
  destruct (process_request sample_cfg resp_glitch drive_state (gs_start g_parked))
    as [[gs' | gs'] | e] eqn:E; try (vm_compute in E; discriminate E).
  destruct (untouched_values_kept sample_cfg resp_glitch drive_state
              (gs_start g_parked) gs' _ E eq_refl) as (Hc & _ & _ & Hp).
  split.
  - apply (Hc charge_state). discriminate.
  - transitivity (ov_drive ov_parked !! "gps_as_of"%string); [| reflexivity].
    apply (Hp "gps_as_of"%string (PInt 199)); [discriminate | reflexivity | reflexivity].
Defined.

(** ** The calls request_state_group makes *)

Lemma point_ok_weaken cfg ov ov' done done' e :
  (forall c, c ∈ done -> c ∈ done' /\ ov_get ov' c = ov_get ov c) ->
  point_ok cfg ov done e -> point_ok cfg ov' done' e.
Proof.
  intros Hd. destruct e as [b | | | |]; simpl; auto.
  intros (Hdry & Hne & Hcl & c & Hc & Hm & Hst).
  destruct (Hd c Hc) as [Hc' Heq].
  split; [exact Hdry |]. split; [exact Hne |]. split; [exact Hcl |].
  exists c. rewrite Heq. auto.
Qed.

Lemma process_request_points cfg r c gs o done :
  process_request cfg r c gs = Ok o ->
  c ∉ done ->
  Forall (point_ok cfg (old_values (state_monitor (gs_globals gs))) done) (gs_events gs) ->
  let gs' := match o with inl x | inr x => x end in
  Forall (point_ok cfg (old_values (state_monitor (gs_globals gs'))) (c :: done))
         (gs_events gs').
Proof.
  intros H Hc Hb. cbv zeta. destruct o as [gs' | gs'].
  - destruct (process_request_inl _ _ _ _ _ H) as [-> ->].
    eapply Forall_impl; [exact Hb |]. intros e. apply point_ok_weaken.
    intros c0 Hc0. split; [right; exact Hc0 | reflexivity].
  - destruct (process_request_inr _ _ _ _ _ H)
      as (d & t & tz & st & Hd & Ht & _ & _ & He & -> & ->).
    set (ov' := ov_set _ c (ls_old st)).
    assert (Hev : Forall (point_ok cfg ov' (c :: done)) (ls_events st)).
    { eapply (process_elements_events _ _ _ _ (point_ok cfg ov' (c :: done)));
        [| exact He |].
      - intros Hr lat long. exact Hr.
      - cbn [ls_events]. eapply Forall_impl; [exact Hb |]. intros e.
        apply point_ok_weaken. intros c0 Hc0. split; [right; exact Hc0 |].
        subst ov'. apply ov_get_set_ne. intros ->. exact (Hc Hc0). }
    destruct (negb (a_dry_run cfg)) eqn:Hdry; cbn [andb]; [| exact Hev].
    destruct (Z.ltb_spec 0 (Z.of_nat (size (ls_fields st)))) as [Hsz | _]; [| exact Hev].
    apply Forall_app. split; [exact Hev |]. constructor; [| constructor].
    cbn [point_ok jb_fields measurement].
    split; [apply negb_true_iff; exact Hdry |].
    split; [apply map_size_non_empty_iff; lia |].
    assert (Hf : forall k w, ls_fields st !! k = Some w ->
                   (w <> PNone /\ mem k a_ignore = false /\ mem k unscraped = false) /\
                   ls_old st !! k = Some w).
    { intros k w Hl.
      pose proof (fun Hemp => process_elements_fields _ _ _ _ _ _ _ k w
                                (sorted_items_NoDup d) Hemp He Hl) as Hx.
      destruct (Hx eq_refl) as (v & _ & Hp & _ & Hr & Ho).
      destruct (reported_clean _ _ Hr) as [Hn Hi].
      apply orb_false_iff in Hp as [Hu _]. auto. }
    split; [intros k w Hl; apply Hf, Hl |].
    exists c. split; [left |]. split; [reflexivity |].
    intros k w Hl. subst ov'. rewrite ov_get_set_eq. apply Hf, Hl.
Qed.

Lemma process_requests_points cfg r reqs : forall gs gs' done,
  NoDup reqs ->
  (forall c, c ∈ reqs -> c ∉ done) ->
  process_requests cfg r reqs gs = Ok gs' ->
  Forall (point_ok cfg (old_values (state_monitor (gs_globals gs))) done) (gs_events gs) ->
  Forall (point_ok cfg (old_values (state_monitor (gs_globals gs'))) (reqs ++ done))
         (gs_events gs').
Proof.
  induction reqs as [| c rest IH]; intros gs gs' done Hnd Hdis H Hb; simpl in H.
  - inv_ok H. exact Hb.
  - case_bind. apply NoDup_cons in Hnd as [Hc Hnd].
    assert (Hcd : c ∉ done) by (apply Hdis; left).
    pose proof (process_request_points _ _ _ _ _ _ E Hcd Hb) as Hp. cbv zeta in Hp.
    destruct a as [gs1 | gs1].
    + inv_ok H. eapply Forall_impl; [exact Hp |]. intros e. apply point_ok_weaken.
      intros c0 Hc0. split; [| reflexivity].
      apply elem_of_cons in Hc0 as [-> | Hc0]; [left |].
      apply elem_of_app. right. exact Hc0.
    + assert (Hdis' : forall c0, c0 ∈ rest -> c0 ∉ c :: done).
      { intros c0 Hc0 Hin. apply elem_of_cons in Hin as [-> | Hin]; [exact (Hc Hc0) |].
        apply (Hdis c0); [right; exact Hc0 | exact Hin]. }
      pose proof (IH _ _ _ Hnd Hdis' H Hp) as Hr.
      eapply Forall_impl; [exact Hr |]. intros e. apply point_ok_weaken.
      intros c0 Hc0. split; [| reflexivity].
      apply elem_of_app in Hc0 as [Hc0 | Hc0].
      * right. apply elem_of_app. left. exact Hc0.
      * apply elem_of_cons in Hc0 as [-> | Hc0]; [left |].
        right. apply elem_of_app. right. exact Hc0.
Qed.

Lemma requests_NoDup : NoDup requests.
Proof. apply (bool_decide_unpack _). reflexivity. Qed.

Lemma request_state_group_points cfg g r now g' evs b :
  request_state_group cfg g r now = Ok (g', evs, b) ->
  Forall (point_ok cfg (old_values (state_monitor g')) requests) evs.
Proof.
  unfold request_state_group. intros H. do 3 case_bind. inv_ok H.
  rewrite <- (app_nil_r requests).
  eapply (process_requests_points _ _ _ _ _ [] requests_NoDup); [| exact E0 |].
  - intros c _ Hin. apply elem_of_nil in Hin. exact Hin.
  - constructor.
Qed.

(** Every call [request_state_group] makes is a write to Influx or the
    start of an elevation thread. A point is written only outside dry-run
    mode, with at least one field, none of them [None], ignored or
    unscraped, and each field with the value the store now holds under
    that name in the category of the measurement; an elevation thread is
    started only when [a_resolve_elevation] is set. *)
Theorem written_points_match_store cfg g r now g' evs b :
  request_state_group cfg g r now = Ok (g', evs, b) ->
  Forall (point_ok cfg (old_values (state_monitor g')) requests) evs.
Proof. apply request_state_group_points. Qed.

Lemma written_points_match_store_witness :
  match request_state_group sample_cfg g_parked resp_glitch 200 with
  | Ok (g', evs, _) =>
      written evs = ["charge_state"; "climate_state"; "drive_state"; "vehicle_state"]%string /\
      Forall (point_ok sample_cfg (old_values (state_monitor g')) requests) evs
  | Raise _ => False
  end.
Proof.
  destruct (request_state_group sample_cfg g_parked resp_glitch 200)
    as [[[g' evs] b] | e] eqn:E; [| vm_compute in E; discriminate E].
  split.
  - vm_compute in E. injection E as _ <- _. reflexivity.
  - exact (written_points_match_store _ _ _ _ _ _ _ E).
Defined.

(** ** A response seen twice *)

Lemma process_request_inl_stale cfg r c gs gs' :
  process_request cfg r c gs = Ok (inl gs') ->
  exists d t,
    r_group r c = Some d /\ d !! "timestamp"%string = Some t /\
    py_eq (py_get (ov_get (old_values (state_monitor (gs_globals gs))) c)
             "timestamp" (PStr "")) t = true.
Proof.
  unfold process_request. cbv zeta. intros H.
  destruct (r_group r c) as [d |]; [| discriminate H]. cbn [mbind result_bind] in H.
  destruct (d !! "timestamp"%string) as [t |] eqn:Hts; [| discriminate H].
  cbn [mbind result_bind] in H.
  destruct (py_eq _ t) eqn:Hs.
  - exists d, t. auto.
  - destruct (py_int t) as [tz |]; [| discriminate H].
    cbn [mbind result_bind] in H. case_bind.
Qed.

Lemma process_request_other_category cfg r c gs o c' :
  process_request cfg r c gs = Ok o ->
  c' <> c ->
  ov_get (old_values (state_monitor (gs_globals (match o with inl x | inr x => x end)))) c'
  = ov_get (old_values (state_monitor (gs_globals gs))) c'.
Proof.
  intros H Hne. destruct o as [gs' | gs'].
  - destruct (process_request_inl _ _ _ _ _ H) as [-> _]. reflexivity.
  - destruct (process_request_inr _ _ _ _ _ H) as (_ & _ & _ & st & _ & _ & _ & _ & _ & -> & _).
    apply ov_get_set_ne. exact Hne.
Qed.

Lemma process_requests_other_category cfg r reqs : forall gs gs' c',
  process_requests cfg r reqs gs = Ok gs' ->
  c' ∉ reqs ->
  ov_get (old_values (state_monitor (gs_globals gs'))) c'
  = ov_get (old_values (state_monitor (gs_globals gs))) c'.
Proof.
  induction reqs as [| c rest IH]; intros gs gs' c' H Hc; simpl in H.
  - inv_ok H. reflexivity.
  - case_bind. apply not_elem_of_cons in Hc as [Hne Hc].
    pose proof (process_request_other_category _ _ _ _ _ _ E Hne) as Ho.
    destruct a as [gs1 | gs1].
    + inv_ok H. exact Ho.
    + rewrite (IH _ _ _ H Hc). exact Ho.
Qed.

(** After a cycle, the first category carries the timestamp of the
    response just seen. *)
Lemma first_category_stamped cfg r gs gs' :
  process_requests cfg r requests gs = Ok gs' ->
  exists d t,
    r_group r charge_state = Some d /\ d !! "timestamp"%string = Some t /\
    py_eq (py_get (ov_charge (old_values (state_monitor (gs_globals gs'))))
             "timestamp" (PStr "")) t = true.
Proof.
  unfold requests. intros H. simpl in H. case_bind. destruct a as [gs1 | gs1].
  - inv_ok H.
    destruct (process_request_inl_stale _ _ _ _ _ E) as (d & t & Hd & Ht & Hs).
    destruct (process_request_inl _ _ _ _ _ E) as [-> _]. eauto.
  - destruct (process_request_inr _ _ _ _ _ E)
      as (d & t & _ & _ & Hd & Ht & _ & _ & _ & _ & _).
    destruct (process_request_stored _ _ _ _ _ _ E Hd) as (Hts & _ & _).
    exists d, t. split; [exact Hd |]. split; [exact Ht |].
    change (process_requests cfg r [climate_state; drive_state; gui_settings; vehicle_state]
              gs1 = Ok gs') in H.
    assert (Hout : charge_state ∉ [climate_state; drive_state; gui_settings; vehicle_state]).
    { intros Hin. repeat (apply elem_of_cons in Hin as [Hin | Hin]; [discriminate Hin |]).
      apply elem_of_nil in Hin. exact Hin. }
    pose proof (process_requests_other_category _ _ _ _ _ _ H Hout) as Ho.
    cbn [ov_get] in Ho, Hts. unfold py_get. rewrite Ho, Hts, Ht. apply py_eq_refl.
Qed.

Lemma process_request_vehicle cfg r c gs o :
  process_request cfg r c gs = Ok o ->
  vehicle (state_monitor (gs_globals (match o with inl x | inr x => x end)))
  = vehicle (state_monitor (gs_globals gs)).
Proof.
  unfold process_request. intros H.
  do 2 case_bind.
  destruct (py_eq _ _); [inv_ok H; reflexivity |].
  do 2 case_bind. inv_ok H. reflexivity.
Qed.

Lemma process_requests_vehicle cfg r reqs : forall gs gs',
  process_requests cfg r reqs gs = Ok gs' ->
  vehicle (state_monitor (gs_globals gs')) = vehicle (state_monitor (gs_globals gs)).
Proof.
  induction reqs as [| c rest IH]; intros gs gs' H; simpl in H.
  - inv_ok H. reflexivity.
  - case_bind. pose proof (process_request_vehicle _ _ _ _ _ E) as Hv.
    destruct a as [gs1 | gs1].
    + inv_ok H. exact Hv.
    + rewrite (IH _ _ H). exact Hv.
Qed.

(** Seeing the same response again changes nothing: the first category is
    found stale, the loop ends there, the monitor is left as it is,
    nothing is written, and the same value is returned. *)
Theorem repeated_response_is_noop cfg g r now g1 evs b :
  request_state_group cfg g r now = Ok (g1, evs, b) ->
  exists g2,
    request_state_group cfg g1 r now = Ok (g2, [], b) /\
    state_monitor g2 = state_monitor g1.
Proof.
  unfold request_state_group at 1. intros H.
  destruct (update_vehicle_from_response (state_monitor g) r) as [m |] eqn:Eu;
    [| discriminate H].
  cbn [mbind result_bind] in H.
  destruct (process_requests cfg r requests _) as [gs |] eqn:Ep; [| discriminate H].
  cbn [mbind result_bind] in H.
  destruct (ongoing_activity_status _ now) as [l |] eqn:El; [| discriminate H].
  cbn [mbind result_bind] in H. injection H as <- <- <-.
  destruct (first_category_stamped _ _ _ _ Ep) as (d & t & Hd & Ht & Hs).
  pose proof (process_requests_vehicle _ _ _ _ _ Ep) as Hv. cbn in Hv.
  unfold update_vehicle_from_response in Eu.
  destruct (r_state r) as [s |] eqn:Hrs; [| discriminate Eu].
  destruct (r_display_name r) as [n |] eqn:Hrn; [| discriminate Eu].
  cbn [mbind result_bind] in Eu. injection Eu as <-. cbn in Hv.
  set (g1 := gs_globals gs) in *.
  set (m2 := set_vehicle (state_monitor g1)
               (set_v_display_name (set_v_state (vehicle (state_monitor g1)) s) n)).
  assert (Hm2 : m2 = state_monitor g1).
  { subst m2. rewrite Hv. destruct (state_monitor g1) as [ov v c]. cbn in *.
    rewrite Hv. reflexivity. }
  exists (set_last_data (set_monitor g1 m2) t). split; [| exact Hm2].
  unfold request_state_group, update_vehicle_from_response. rewrite Hrs, Hrn.
  cbn [mbind result_bind]. fold m2.
  unfold requests.
  rewrite (process_requests_break cfg r charge_state _ _ _
             (process_request_stale cfg r charge_state
                {| gs_globals := set_monitor g1 m2; gs_lat := PNone; gs_long := PNone;
                   gs_events := [] |} d t Hd Ht Hs)).
  cbn [mbind result_bind gs_globals gs_events].
  change (old_values (state_monitor (set_last_data (set_monitor g1 m2) t)))
    with (old_values (state_monitor g1)).
  rewrite El. reflexivity.
Qed.

Lemma repeated_response_is_noop_witness :
  match request_state_group sample_cfg g_parked (resp_charging 200) 200 with
  | Ok (g1, _, b) =>
      exists g2,
        request_state_group sample_cfg g1 (resp_charging 200) 200 = Ok (g2, [], b) /\
        state_monitor g2 = state_monitor g1
  | Raise _ => False
  end.
Proof.
  destruct (request_state_group sample_cfg g_parked (resp_charging 200) 200)
    as [[[g1 evs] b] | e] eqn:E; [| vm_compute in E; discriminate E].
  exact (repeated_response_is_noop _ _ _ _ _ _ _ E).
Defined.

(** ** check_states: failures, bounds, what it leaves alone *)

(** A fetch that fails, if [check_states] returns at all, failed with one
    of the two exceptions it catches; the store is left as it was and
    nothing is written. On a timeout the vehicle is marked asleep; on an
    API error nothing at all changes and the value is the interval passed
    in when sleep is allowed, -1 otherwise. *)
Theorem failed_fetch_keeps_store cfg g e now interval g' evs v :
  check_states cfg g (FetchRaise e) now interval = Ok (g', evs, v) ->
  old_values (state_monitor g') = old_values (state_monitor g) /\ evs = [] /\
  ((e = ContinuePollingError /\
    v_state (vehicle (state_monitor g')) = PStr "asleep") \/
   (e = HTTPError /\ g' = g /\
    v = if a_allow_sleep cfg =? 1 then interval else -1)).
Proof.
  unfold check_states. intros H.
  destruct e; try discriminate H; cbn [check_states_try mbind result_bind] in H.
  - destruct (charging_tier (assume_asleep g)) as [charging |] eqn:Hc.
    + rewrite (check_states_tail_cases _ _ _ _ _ Hc) in H.
      cbn [mbind result_bind] in H.
      destruct charging; inv_ok H; repeat split; auto.
    + unfold check_states_tail in H. rewrite Hc in H. discriminate H.
  - inv_ok H. repeat split; auto.
Qed.

Lemma failed_fetch_keeps_store_witness :
  check_states cfg_no_sleep g_parked (FetchRaise HTTPError) 200 120
  = Ok (g_parked, [], -1) /\
  old_values (state_monitor g_parked) = old_values (state_monitor g_parked).
Proof.
  split; [reflexivity |].
  exact (proj1 (failed_fetch_keeps_store cfg_no_sleep g_parked HTTPError 200 120
                  g_parked [] (-1) eq_refl)).
Defined.

Lemma ladder_bounds v : In v pollTimes -> 2 <= v <= 2000.
Proof.
  unfold pollTimes. simpl. intros H.
  repeat (destruct H as [<- | H]; [lia |]). destruct H.
Qed.

(** Unless the fetch fails with an API error, the interval returned lies
    between the smaller of 2 and [a_awake_poll_secs] and the larger of
    2000 and [a_awake_poll_secs]. *)
Theorem interval_bounds cfg g f now interval g' evs v :
  check_states cfg g f now interval = Ok (g', evs, v) ->
  f <> FetchRaise HTTPError ->
  Z.min 2 (a_awake_poll_secs cfg) <= v <= Z.max 2000 (a_awake_poll_secs cfg).
Proof.
  intros H Hf.
  destruct (check_states_value _ _ _ _ _ _ _ _ H Hf) as [-> | [-> | [-> | Hin]]];
    try lia.
  apply ladder_bounds in Hin. lia.
Qed.

Lemma interval_bounds_witness :
  Z.min 2 (a_awake_poll_secs sample_cfg) <= 2 <= Z.max 2000 (a_awake_poll_secs sample_cfg).
Proof.
  apply (interval_bounds sample_cfg g_parked (FetchRaise ContinuePollingError) 200 120
           (extend_streak (assume_asleep g_parked)) [] 2).
  - reflexivity.
  - discriminate.
Defined.

(** ** calculate_next_wakeup: bound and failure *)

(** The deadline is never later than [now + a_maximum_sleep]; when it is
    earlier, it is the positive start time of a pending scheduled charge. *)
Theorem next_wakeup_bounded cfg now m w :
  calculate_next_wakeup cfg now m = Ok w ->
  w <= now + a_maximum_sleep cfg /\
  (w = now + a_maximum_sleep cfg \/
   (0 < w /\ scheduled_pending (old_values m) = true /\
    py_num (scheduled_start (old_values m)) = Some w)).
Proof.
  unfold calculate_next_wakeup, scheduled_pending, scheduled_start. cbv zeta.
  destruct (py_truthy _); [| intros H; inv_ok H; split; [lia | auto]].
  destruct (py_num _) as [t |]; [| discriminate].
  destruct (Z.ltb_spec 0 t) as [H0 | H0];
    destruct (Z.ltb_spec t (now + a_maximum_sleep cfg)) as [H1 | H1];
    cbn [andb]; intros H; inv_ok H; split; auto; lia.
Qed.

Lemma next_wakeup_bounded_witness :
  1000 <= 500 + a_maximum_sleep sample_cfg /\
  (1000 = 500 + a_maximum_sleep sample_cfg \/
   (0 < 1000 /\ scheduled_pending ov_scheduled = true /\
    py_num (scheduled_start ov_scheduled) = Some 1000)).
Proof.
  exact (next_wakeup_bounded sample_cfg 500 (sample_monitor ov_scheduled "online" 0)
           1000 eq_refl).
Defined.

(** With a scheduled charge pending, a stored start time that is not a
    number (a null read, a string) makes [calculate_next_wakeup] raise
    [TypeError]. *)
Theorem next_wakeup_needs_number cfg now m :
  scheduled_pending (old_values m) = true ->
  py_num (scheduled_start (old_values m)) = None ->
  calculate_next_wakeup cfg now m = Raise TypeError.
Proof.
  unfold calculate_next_wakeup, scheduled_pending, scheduled_start. cbv zeta.
  intros -> ->. reflexivity.
Qed.

Lemma next_wakeup_needs_number_witness :
  calculate_next_wakeup sample_cfg 500 (sample_monitor ov_pending_null "online" 0)
  = Raise TypeError.
Proof.
  apply (next_wakeup_needs_number sample_cfg 500
           (sample_monitor ov_pending_null "online" 0)); reflexivity.
Defined.

(** ** The main loop: what a pass is made of *)

Lemma process_request_loop_vars cfg r c gs o :
  process_request cfg r c gs = Ok o ->
  loop_vars (gs_globals (match o with inl x | inr x => x end)) = loop_vars (gs_globals gs).
Proof.
  unfold process_request. intros H.
  do 2 case_bind.
  destruct (py_eq _ _); [inv_ok H; reflexivity |].
  do 2 case_bind. inv_ok H. reflexivity.
Qed.

Lemma process_requests_loop_vars cfg r reqs : forall gs gs',
  process_requests cfg r reqs gs = Ok gs' ->
  loop_vars (gs_globals gs') = loop_vars (gs_globals gs).
Proof.
  induction reqs as [| c rest IH]; intros gs gs' H; simpl in H.
  - inv_ok H. reflexivity.
  - case_bind. pose proof (process_request_loop_vars _ _ _ _ _ E) as Hv.
    destruct a as [gs1 | gs1].
    + inv_ok H. exact Hv.
    + rewrite (IH _ _ H). exact Hv.
Qed.

Lemma request_state_group_loop_vars cfg g r now g' evs b :
  request_state_group cfg g r now = Ok (g', evs, b) -> loop_vars g' = loop_vars g.
Proof.
  unfold request_state_group. intros H. do 3 case_bind. inv_ok H.
  rewrite (process_requests_loop_vars _ _ _ _ _ E0). reflexivity.
Qed.

(** [check_states] assigns none of the main loop's variables, and the
    calls it records are those of [request_state_group]. *)
Lemma check_states_frame cfg g f now interval g' evs v :
  check_states cfg g f now interval = Ok (g', evs, v) ->
  loop_vars g' = loop_vars g /\
  Forall (point_ok cfg (old_values (state_monitor g')) requests) evs.
Proof.
  unfold check_states. intros H. case_bind.
  destruct a as [g1 evs1 interval1 any_change | g1 v1].
  - assert (H1 : loop_vars g1 = loop_vars g /\
                 Forall (point_ok cfg (old_values (state_monitor g1)) requests) evs1).
    { destruct f as [r | e].
      - destruct (check_states_try_fetched_inv _ _ _ _ _ _ _ _ _ E) as (b & Hr & _).
        split; [exact (request_state_group_loop_vars _ _ _ _ _ _ _ Hr) |].
        exact (request_state_group_points _ _ _ _ _ _ _ Hr).
      - destruct e; try discriminate E. inv_ok E. split; [reflexivity | constructor]. }
    destruct H1 as [Hl Hp].
    destruct (charging_tier g1) as [charging |] eqn:Hc.
    + rewrite (check_states_tail_cases _ _ _ _ _ Hc) in H.
      cbn [mbind result_bind] in H.
      destruct charging; [| destruct any_change]; inv_ok H; auto.
    + unfold check_states_tail in H. rewrite Hc in H. discriminate H.
  - inv_ok H. destruct f as [r | e].
    + unfold check_states_try in E. case_bind. destruct a as [[? ?] ?].
      destruct (shift_in_gear _); discriminate E.
    + destruct e; try discriminate E. inv_ok E. split; [reflexivity | constructor].
Qed.

Lemma forced_refresh_cases cfg inp g g' evs :
  forced_refresh cfg inp g = Ok (g', evs) ->
  state_monitor g' = state_monitor g /\
  previous_car_state g' = previous_car_state g /\
  if refresh_due g inp
  then evs = [WakeUpCall] /\
       calculate_next_wakeup cfg (t_wake_forced inp) (state_monitor g)
       = Ok (next_wakeup g') /\
       poll_interval g' = match in_wake inp with
                          | WakeReturns => a_awake_poll_secs cfg
                          | _ => poll_interval g
                          end
  else g' = g /\ evs = [].
Proof.
  unfold forced_refresh, refresh_due. intros H.
  destruct (_ || _).
  - case_bind. destruct (in_wake inp); try discriminate H; inv_ok H; simpl; auto.
  - inv_ok H. auto.
Qed.

Lemma track_transitions_cases cfg inp g g' :
  track_transitions cfg inp g = Ok g' ->
  let st := v_state (vehicle (state_monitor g)) in
  state_monitor g' = state_monitor g /\
  previous_car_state g' = previous_car_state g /\
  first_run g' = first_run g /\
  poll_interval g' =
    (if py_eq (previous_car_state g) (PStr "asleep") && py_eq st (PStr "online")
     then a_awake_poll_secs cfg else poll_interval g) /\
  (py_eq st (PStr "online") = true ->
   calculate_next_wakeup cfg (t_wake_online inp) (state_monitor g) = Ok (next_wakeup g')) /\
  (py_eq st (PStr "online") = false ->
   py_eq st (PStr "asleep") && py_eq (previous_car_state g) (PStr "online") = false ->
   next_wakeup g' = next_wakeup g).
Proof.
  unfold track_transitions. cbv zeta. intros H.
  destruct (py_eq (previous_car_state g) (PStr "asleep")
            && py_eq (v_state (vehicle (state_monitor g))) (PStr "online"));
    destruct (py_eq (v_state (vehicle (state_monitor g))) (PStr "asleep")
              && py_eq (previous_car_state g) (PStr "online"));
    destruct (py_eq (v_state (vehicle (state_monitor g))) (PStr "online"));
    cbn [mbind result_bind] in H; repeat case_bind;
    repeat match goal with
           | H' : Ok _ = Ok _ |- _ => injection H' as H'; subst
           end; simpl in *; repeat split; auto; try discriminate; congruence.
Qed.

(** The steps of a pass that completes. *)
Lemma cycle_body_steps cfg g inp g1 evs :
  cycle_body cfg g inp = Ok (g1, evs) ->
  exists g0 evs0 v status ga evw gb,
    check_states cfg (prepared g inp) (in_fetch inp) (t_classify inp) (poll_interval g)
      = Ok (g0, evs0, v) /\
    ongoing_activity_status (old_values (state_monitor g0)) (t_status inp) = Ok status /\
    forced_refresh cfg inp (set_car_active_status (set_poll_interval g0 v) (Some status))
      = Ok (ga, evw) /\
    track_transitions cfg inp ga = Ok gb /\
    g1 = track_car gb /\
    evs = evs0 ++ evw ++
          (if a_dry_run cfg then []
           else [WriteVehicleState (v_vin (vehicle (state_monitor gb)))
                   (v_display_name (vehicle (state_monitor gb)))
                   (t_ts inp * 1000000000) (v_state (vehicle (state_monitor gb)))]).
Proof.
  unfold cycle_body. fold (prepared g inp). intros H.
  change (poll_interval (prepared g inp)) with (poll_interval g) in H.
  case_bind. destruct a as [[g0 evs0] v].
  case_bind. case_bind. destruct a0 as [ga evw]. case_bind. inv_ok H.
  eexists g0, evs0, v, _, ga, evw, _. repeat split; eauto.
Qed.


Lemma point_ok_not_wake cfg ov done evs :
  Forall (point_ok cfg ov done) evs -> (WakeUpCall ∉ evs) /\ sleeps evs = [].
Proof.
  induction 1 as [| e evs He _ [IHw IHs]]; [split; [apply not_elem_of_nil | reflexivity] |].
  split.
  - intros Hin. apply elem_of_cons in Hin as [<- | Hin]; [exact He | exact (IHw Hin)].
  - destruct e; simpl in *; try contradiction; exact IHs.
Qed.

Lemma calculate_next_wakeup_le cfg now m w :
  calculate_next_wakeup cfg now m = Ok w -> w <= now + a_maximum_sleep cfg.
Proof.
  unfold calculate_next_wakeup. cbv zeta.
  destruct (py_truthy _); [| intros H; inv_ok H; lia].
  destruct (py_num _) as [t |]; [| discriminate].
  destruct (Z.ltb_spec 0 t) as [H0 | H0];
    destruct (Z.ltb_spec t (now + a_maximum_sleep cfg)) as [H1 | H1];
    cbn [andb]; intros H; inv_ok H; lia.
Qed.

(** ** The main loop: waking, deadlines, recorded state *)



(** While the vehicle is online at the end of a pass, the deadline has
    just been recomputed from the store, and so is at most
    [a_maximum_sleep] ahead of the clock. *)
Theorem online_refreshes_deadline cfg g inp g1 evs :
  cycle_body cfg g inp = Ok (g1, evs) ->
  py_eq (v_state (vehicle (state_monitor g1))) (PStr "online") = true ->
  calculate_next_wakeup cfg (t_wake_online inp) (state_monitor g1) = Ok (next_wakeup g1) /\
  next_wakeup g1 <= t_wake_online inp + a_maximum_sleep cfg.
Proof.
  intros H Hon.
  destruct (cycle_body_steps _ _ _ _ _ H)
    as (g0 & evs0 & v & status & ga & evw & gb & _ & _ & _ & Ht & -> & _).
  destruct (track_transitions_cases _ _ _ _ Ht) as (Hm & _ & _ & _ & Honl & _).
  cbn [track_car state_monitor next_wakeup] in *. rewrite Hm in *.
  pose proof (Honl Hon) as Hc. split; [exact Hc |].
  exact (calculate_next_wakeup_le _ _ _ _ Hc).
Qed.

Lemma online_refreshes_deadline_witness :
  match cycle_body sample_cfg g_parked (pass_fetched (resp_parked 1000) 1000) with
  | Ok (g1, evs) => next_wakeup g1 <= 1000 + 7200
  | Raise _ => False
  end.
Proof.
  destruct (cycle_body sample_cfg g_parked (pass_fetched (resp_parked 1000) 1000))
    as [[g1 evs] | e] eqn:E; [| vm_compute in E; discriminate E].
  apply (online_refreshes_deadline _ _ _ _ _ E).
  vm_compute in E. injection E as <- _. reflexivity.
Defined.

Lemma check_states_timeout_vehicle cfg g now interval g' evs v :
  check_states cfg g (FetchRaise ContinuePollingError) now interval = Ok (g', evs, v) ->
  vehicle (state_monitor g') = set_v_state (vehicle (state_monitor g)) (PStr "asleep") /\
  evs = [].
Proof.
  unfold check_states. cbn [check_states_try mbind result_bind]. intros H.
  destruct (charging_tier (assume_asleep g)) as [charging |] eqn:Hc.
  - rewrite (check_states_tail_cases _ _ _ _ _ Hc) in H.
    cbn [mbind result_bind] in H.
    destruct charging; inv_ok H; split; reflexivity.
  - unfold check_states_tail in H. rewrite Hc in H. discriminate H.
Qed.

(** When the fetch times out, the pass records the vehicle as asleep: that
    is the state kept as [previous_car_state] and, outside dry-run mode,
    the state written to Influx as the last call of the pass before the
    sleep. *)
Theorem timeout_records_asleep cfg g inp g1 evs :
  in_fetch inp = FetchRaise ContinuePollingError ->
  cycle_body cfg g inp = Ok (g1, evs) ->
  previous_car_state g1 = PStr "asleep" /\
  (a_dry_run cfg = false ->
   last evs = Some (WriteVehicleState (v_vin (in_vehicle inp))
                      (v_display_name (in_vehicle inp))
                      (t_ts inp * 1000000000) (PStr "asleep"))).
Proof.
  intros Hf H.
  destruct (cycle_body_steps _ _ _ _ _ H)
    as (g0 & evs0 & v & status & ga & evw & gb & Hc & _ & Hfr & Ht & -> & ->).
  rewrite Hf in Hc.
  destruct (check_states_timeout_vehicle _ _ _ _ _ _ _ Hc) as [Hv _].
  destruct (forced_refresh_cases _ _ _ _ _ Hfr) as (Hm1 & _ & _).
  destruct (track_transitions_cases _ _ _ _ Ht) as (Hm2 & _).
  assert (Hveh : vehicle (state_monitor gb) = set_v_state (in_vehicle inp) (PStr "asleep")).
  { rewrite Hm2, Hm1. exact Hv. }
  split.
  - cbn [track_car previous_car_state]. rewrite Hveh. reflexivity.
  - intros ->. rewrite Hveh. cbn [set_v_state v_vin v_display_name v_state].
    rewrite !app_assoc. apply last_snoc.
Qed.

Lemma timeout_records_asleep_witness :
  match cycle_body sample_cfg g_parked (pass_unreachable 1000) with
  | Ok (g1, evs) =>
      previous_car_state g1 = PStr "asleep" /\
      last evs = Some (WriteVehicleState (PStr "5YJ") (PStr "car") 1000000000000
                         (PStr "asleep"))
  | Raise _ => False
  end.
Proof.
  destruct (cycle_body sample_cfg g_parked (pass_unreachable 1000))
    as [[g1 evs] | e] eqn:E; [| vm_compute in E; discriminate E].
  destruct (timeout_records_asleep sample_cfg g_parked (pass_unreachable 1000) g1 evs
              eq_refl E) as [Hp Hl].
  split; [exact Hp | exact (Hl eq_refl)].
Defined.

(** ** The main loop: passes that end in an exception *)

Lemma main_cycle_negative_sleep cfg g inp g1 evs :
  cycle_body cfg g inp = Ok (g1, evs) ->
  sleep_arg g1 inp < 0 ->
  main_cycle cfg g inp = Raise ValueError.
Proof.
  intros Hb Hd. unfold main_cycle. rewrite Hb. cbn [mbind result_bind].
  unfold time_sleep. destruct (Z.ltb_spec (sleep_arg g1 inp) 0); [reflexivity | lia].
Qed.

(** A scheduled charge that is still pending after its start time ends the
    program: with the vehicle online the deadline becomes that past start
    time, the clamp makes the sleep length negative, and [time.sleep]
    raises [ValueError]. *)
Theorem past_scheduled_charge_raises cfg g inp g1 evs t :
  cycle_body cfg g inp = Ok (g1, evs) ->
  in_fetch inp <> FetchRaise HTTPError ->
  py_eq (v_state (vehicle (state_monitor g1))) (PStr "online") = true ->
  scheduled_pending (old_values (state_monitor g1)) = true ->
  py_num (scheduled_start (old_values (state_monitor g1))) = Some t ->
  0 < t -> t < t_wake_online inp -> t < t_clamp_test inp -> t < t_clamp_sub inp ->
  0 <= a_maximum_sleep cfg -> 0 <= a_awake_poll_secs cfg ->
  next_wakeup g1 = t /\ main_cycle cfg g inp = Raise ValueError.
Proof.
  intros H Hf Hon Hp Ht H0 Hw Hct Hcs Hmax Haw.
  destruct (cycle_body_steps _ _ _ _ _ H)
    as (g0 & evs0 & v & status & ga & evw & gb & _ & _ & _ & Htt & Hg1 & _).
  destruct (track_transitions_cases _ _ _ _ Htt) as (Hm & _ & _ & _ & Honl & _).
  assert (Hnw : next_wakeup g1 = t).
  { subst g1. cbn [track_car state_monitor next_wakeup] in *. rewrite Hm in *.
    pose proof (Honl Hon) as Hc.
    unfold calculate_next_wakeup, scheduled_pending, scheduled_start in *.
    cbv zeta in Hc. rewrite Hp, Ht in Hc.
    destruct (Z.ltb_spec 0 t); [| lia].
    destruct (Z.ltb_spec t (t_wake_online inp + a_maximum_sleep cfg)); [| lia].
    cbn [andb] in Hc. inv_ok Hc. reflexivity. }
  split; [exact Hnw |].
  apply (main_cycle_negative_sleep _ _ _ _ _ H).
  destruct (cycle_body_inv _ _ _ _ _ H) as (g0' & evs0' & v' & Hc' & Hpi & _).
  pose proof (check_states_value _ _ _ _ _ _ _ _ Hc' Hf) as Hv.
  assert (Hpos : 0 <= poll_interval g1).
  { destruct Hpi as [-> | ->]; [| exact Haw].
    destruct Hv as [-> | [-> | [-> | Hin]]]; try lia.
    apply ladder_bounds in Hin. lia. }
  unfold sleep_arg. rewrite Hnw.
  destruct (Z.ltb_spec t (t_clamp_test inp + poll_interval g1)); lia.
Qed.

Lemma past_scheduled_charge_raises_witness :
  main_cycle sample_cfg g_parked (pass_fetched (resp_scheduled 5000) 5000)
  = Raise ValueError.
Proof.
  destruct (cycle_body sample_cfg g_parked (pass_fetched (resp_scheduled 5000) 5000))
    as [[g1 evs] | e] eqn:E; [| vm_compute in E; discriminate E].
  refine (proj2 (past_scheduled_charge_raises sample_cfg g_parked
                   (pass_fetched (resp_scheduled 5000) 5000) g1 evs 1000 E _ _ _ _ _ _ _ _ _ _));
    try (vm_compute in E; injection E as <- _; reflexivity);
    try discriminate; cbn; lia.
Defined.

(** With sleeping disallowed, an API error makes [check_states] return -1;
    unless a wake-up or an asleep-to-online transition resets the interval
    in the same pass, the main loop takes -1 as a sleep length and ends
    with the [ValueError] of [time.sleep]. *)
Theorem reinitialize_value_is_slept_on cfg g inp g1 evs :
  in_fetch inp = FetchRaise HTTPError ->
  a_allow_sleep cfg <> 1 ->
  cycle_body cfg g inp = Ok (g1, evs) ->
  refresh_due g inp = false \/ in_wake inp <> WakeReturns ->
  py_eq (previous_car_state g) (PStr "asleep")
  && py_eq (v_state (in_vehicle inp)) (PStr "online") = false ->
  t_clamp_test inp <= t_clamp_sub inp ->
  poll_interval g1 = -1 /\ main_cycle cfg g inp = Raise ValueError.
Proof.
  intros Hf Ha H Hw Htr Hclk.
  destruct (cycle_body_steps _ _ _ _ _ H)
    as (g0 & evs0 & v & status & ga & evw & gb & Hc & _ & Hfr & Ht & Hg1 & _).
  rewrite Hf in Hc. unfold check_states in Hc.
  cbn [check_states_try mbind result_bind] in Hc. injection Hc as <- <- <-.
  apply Z.eqb_neq in Ha. rewrite Ha in *.
  destruct (forced_refresh_cases _ _ _ _ _ Hfr) as (Hm1 & Hp1 & Hdue).
  change (refresh_due (set_car_active_status (set_poll_interval (prepared g inp) (-1))
                         (Some status)) inp) with (refresh_due g inp) in Hdue.
  assert (Hpa : poll_interval ga = -1).
  { destruct (refresh_due g inp).
    - destruct Hdue as (_ & _ & ->). destruct Hw as [Hw | Hw]; [discriminate Hw |].
      destruct (in_wake inp); [destruct (Hw eq_refl) | reflexivity | reflexivity].
    - destruct Hdue as (-> & _). reflexivity. }
  destruct (track_transitions_cases _ _ _ _ Ht) as (_ & _ & _ & Hpoll & _).
  rewrite Hm1, Hp1 in Hpoll. cbn in Hpoll. rewrite Htr, Hpa in Hpoll.
  assert (Hp : poll_interval g1 = -1) by (subst g1; exact Hpoll).
  split; [exact Hp |].
  apply (main_cycle_negative_sleep _ _ _ _ _ H).
  unfold sleep_arg. rewrite Hp.
  destruct (Z.ltb_spec (next_wakeup g1) (t_clamp_test inp + -1)); lia.
Qed.

Lemma reinitialize_value_is_slept_on_witness :
  main_cycle cfg_no_sleep g_parked (pass_api_error 1000) = Raise ValueError.
Proof.
  destruct (cycle_body cfg_no_sleep g_parked (pass_api_error 1000))
    as [[g1 evs] | e] eqn:E; [| vm_compute in E; discriminate E].
  refine (proj2 (reinitialize_value_is_slept_on cfg_no_sleep g_parked
                   (pass_api_error 1000) g1 evs eq_refl _ E _ eq_refl _)).
  - discriminate.
  - left. reflexivity.
  - cbn. lia.
Defined.

(** A response that lacks the vehicle's [state] or [display_name], the
    first category, or that category's timestamp is not caught anywhere:
    the pass ends with [KeyError]. *)
Theorem missing_keys_raise_key_error cfg g inp r :
  in_fetch inp = FetchOk r ->
  r_state r = None \/ r_display_name r = None \/ r_group r charge_state = None \/
  (exists d, r_group r charge_state = Some d /\ d !! "timestamp"%string = None) ->
  main_cycle cfg g inp = Raise KeyError.
Proof.
  intros Hf Hk.
  assert (Hr : request_state_group cfg (prepared g inp) r (t_classify inp) = Raise KeyError).
  { unfold request_state_group, update_vehicle_from_response.
    destruct (r_state r) as [s |]; [| reflexivity].
    destruct (r_display_name r) as [n |]; [| reflexivity].
    cbn [mbind result_bind]. unfold requests. cbn [process_requests].
    assert (Hp : forall gs, process_request cfg r charge_state gs = Raise KeyError).
    { intros gs. unfold process_request.
      destruct Hk as [Hk | [Hk | [Hk | (d & Hd & Hk)]]]; try discriminate Hk.
      - rewrite Hk. reflexivity.
      - rewrite Hd. cbn [mbind result_bind]. rewrite Hk. reflexivity. }
    rewrite Hp. reflexivity. }
  unfold main_cycle, cycle_body. fold (prepared g inp).
  unfold check_states, check_states_try. rewrite Hf, Hr. reflexivity.
Qed.

Lemma missing_keys_raise_key_error_witness :
  main_cycle sample_cfg g_parked (pass_fetched resp_no_state 1000) = Raise KeyError.
Proof.
  apply (missing_keys_raise_key_error sample_cfg g_parked
           (pass_fetched resp_no_state 1000) resp_no_state eq_refl).
  left. reflexivity.
Defined.

(** ** The main loop: what is written, how often it sleeps *)

Lemma sleeps_app evs1 evs2 : sleeps (evs1 ++ evs2) = sleeps evs1 ++ sleeps evs2.
Proof. unfold sleeps. apply omap_app. Qed.

Lemma cycle_body_no_sleep cfg g inp g1 evs :
  cycle_body cfg g inp = Ok (g1, evs) -> sleeps evs = [].
Proof.
  intros H.
  destruct (cycle_body_steps _ _ _ _ _ H)
    as (g0 & evs0 & v & status & ga & evw & gb & Hc & _ & Hfr & _ & _ & ->).
  destruct (check_states_frame _ _ _ _ _ _ _ _ Hc) as [_ Hp].
  destruct (point_ok_not_wake _ _ _ _ Hp) as [_ Hs0].
  destruct (forced_refresh_cases _ _ _ _ _ Hfr) as (_ & _ & Hdue).
  rewrite !sleeps_app, Hs0.
  destruct (refresh_due _ inp); [destruct Hdue as (-> & _) | destruct Hdue as (_ & ->)];
    destruct (a_dry_run cfg); reflexivity.
Qed.

(** The loop sleeps exactly once per pass, never a negative length, and
    the last length slept is the value left in [poll_interval]. *)
Theorem one_sleep_per_pass cfg inps : forall g g' evs,
  main_loop cfg g inps = Ok (g', evs) ->
  length (sleeps evs) = length inps /\
  Forall (fun d => 0 <= d) (sleeps evs) /\
  (inps <> [] -> last (sleeps evs) = Some (poll_interval g')).
Proof.
  induction inps as [| inp rest IH]; intros g g' evs H; simpl in H.
  - inv_ok H. repeat split; [constructor | intros Hn; destruct (Hn eq_refl)].
  - destruct (main_cycle cfg g inp) as [[g1 evs1] |] eqn:Hm; [| discriminate H].
    cbn [mbind result_bind] in H.
    destruct (main_loop cfg g1 rest) as [[g2 evs2] |] eqn:Hl; [| discriminate H].
    cbn [mbind result_bind] in H. inv_ok H.
    destruct (main_cycle_inv _ _ _ _ _ Hm) as (gb & evb & Hb & Hnn & -> & ->).
    destruct (IH _ _ _ Hl) as (Hlen & Hall & Hlast).
    rewrite !sleeps_app, (cycle_body_no_sleep _ _ _ _ _ Hb).
    cbn [sleeps omap app]. cbn [length]. split; [simpl; lia |].
    split; [constructor; [exact Hnn | exact Hall] |].
    intros _. destruct rest as [| inp' rest'].
    + simpl in Hl. inv_ok Hl. reflexivity.
    + rewrite <- Hlast by discriminate.
      destruct (sleeps evs2) eqn:Hs; [simpl in Hlen; discriminate Hlen | reflexivity].
Qed.

Lemma one_sleep_per_pass_witness :
  match main_loop sample_cfg g_parked
          [pass_fetched (resp_parked 1000) 1000; pass_unreachable 1002] with
  | Ok (g', evs) => sleeps evs = [2; 5] /\ length (sleeps evs) = 2%nat
  | Raise _ => False
  end.
Proof.
  destruct (main_loop sample_cfg g_parked
              [pass_fetched (resp_parked 1000) 1000; pass_unreachable 1002])
    as [[g' evs] | e] eqn:E; [| vm_compute in E; discriminate E].
  split.
  - vm_compute in E. injection E as _ <-. reflexivity.
  - exact (proj1 (one_sleep_per_pass _ _ _ _ _ E)).
Defined.

(** In dry-run mode a pass writes nothing to Influx: neither the points of
    the categories nor the vehicle state. *)
Theorem dry_run_writes_nothing cfg g inp g' evs :
  a_dry_run cfg = true ->
  main_cycle cfg g inp = Ok (g', evs) ->
  Forall (fun e => match e with
                   | WritePoints _ | WriteVehicleState _ _ _ _ => False
                   | _ => True
                   end) evs.
Proof.
  intros Hdry Hm.
  destruct (main_cycle_inv _ _ _ _ _ Hm) as (g1 & evs1 & Hb & _ & _ & ->).
  destruct (cycle_body_steps _ _ _ _ _ Hb)
    as (g0 & evs0 & v & status & ga & evw & gb & Hc & _ & Hfr & _ & _ & ->).
  destruct (check_states_frame _ _ _ _ _ _ _ _ Hc) as [_ Hp].
  destruct (forced_refresh_cases _ _ _ _ _ Hfr) as (_ & _ & Hdue).
  rewrite Hdry. rewrite !Forall_app. repeat split.
  - eapply Forall_impl; [exact Hp |]. intros e He.
    destruct e; simpl in *; auto.
    destruct He as (Hd & _). congruence.
  - destruct (refresh_due _ inp); [destruct Hdue as (-> & _) | destruct Hdue as (_ & ->)];
      repeat constructor.
  - constructor.
  - repeat constructor.
Qed.

Lemma dry_run_writes_nothing_witness :
  match main_cycle cfg_dry g_parked (pass_fetched (resp_drive 1000) 1000) with
  | Ok (g', evs) =>
      Forall (fun e => match e with
                       | WritePoints _ | WriteVehicleState _ _ _ _ => False
                       | _ => True
                       end) evs
  | Raise _ => False
  end.
Proof.
  destruct (main_cycle cfg_dry g_parked (pass_fetched (resp_drive 1000) 1000))
    as [[g' evs] | e] eqn:E; [| vm_compute in E; discriminate E].
  exact (dry_run_writes_nothing cfg_dry _ _ _ _ eq_refl E).
Defined.
